(** * Smart Property Agent: the extraction orchestration layer

    A shallow embedding of [PropertyFindingAgent] of [streamlit_app.py]
    ([find_properties] and [get_location_trends]) together with the
    properties of its request builder and of its result formatter.

    Python values are dynamically typed, so the embedding works over a small
    universe of values ([pyval]) and every primitive that Python may reject at
    run time returns a [result]: either a value or the exception raised. *)

From Stdlib Require Import List NArith ZArith Bool Ascii String Lia.
From Stdlib Require Import DecimalString.
Import ListNotations.

Set Implicit Arguments.
Set Warnings "-register-all".

(** ** Strings

    A Python [str] is a sequence of Unicode code points. *)

Definition codepoint := N.
Definition str := list codepoint.

Module Utf8.

(** Decoding of the UTF-8 bytes of a literal of this file into code points,
    so that literals can be written the way the source writes them. *)
Definition cont (b : N) : N := N.land b 63.

Fixpoint decode (bs : list N) : str :=
  match bs with
  | [] => []
  | b0 :: t0 =>
    if (b0 <? 128)%N then b0 :: decode t0 else
    match t0 with
    | [] => []
    | b1 :: t1 =>
      if (b0 <? 224)%N
      then N.lor (N.shiftl (N.land b0 31) 6) (cont b1) :: decode t1
      else
      match t1 with
      | [] => []
      | b2 :: t2 =>
        if (b0 <? 240)%N
        then N.lor (N.shiftl (N.land b0 15) 12)
               (N.lor (N.shiftl (cont b1) 6) (cont b2)) :: decode t2
        else
        match t2 with
        | [] => []
        | b3 :: t3 =>
          N.lor (N.shiftl (N.land b0 7) 18)
            (N.lor (N.shiftl (cont b1) 12)
               (N.lor (N.shiftl (cont b2) 6) (cont b3))) :: decode t3
        end
      end
    end
  end.

Definition lit (s : string) : str :=
  decode (map N_of_ascii (list_ascii_of_string s)).

End Utf8.

(** [py "..."] is the Python string literal ["..."]. *)
Definition py (s : string) : str := Utf8.lit s.
Arguments py s%_string.

Definition LF : codepoint := 10%N.

Definition str_eqb (a b : str) : bool :=
  if list_eq_dec N.eq_dec a b then true else false.

Fixpoint starts_with (s prefix : str) : bool :=
  match prefix, s with
  | [], _ => true
  | p :: prefix', c :: s' => (p =? c)%N && starts_with s' prefix'
  | _ :: _, [] => false
  end.

(** [needle in haystack] on two strings: substring search. *)
Fixpoint str_contains (haystack needle : str) : bool :=
  starts_with haystack needle ||
  match haystack with
  | [] => false
  | _ :: rest => str_contains rest needle
  end.

(** The propositional reading of "occurs as a substring". *)
Definition substring (needle haystack : str) : Prop :=
  exists before after, haystack = before ++ needle ++ after.

Definition ends_with (s suffix : str) : Prop :=
  exists before, s = before ++ suffix.

(** ** The parts of the Python runtime that are taken as given

    [str.lower] consults the Unicode character database, and [repr] of a
    float or of a string is a library algorithm; the tables and the two
    renderings are parameters of the model. *)

Class Runtime := {
  (** full lowercase mapping of one code point (one to three code points) *)
  to_lower_full : codepoint -> str;
  (** the Unicode properties Cased and Case_Ignorable *)
  is_cased : codepoint -> bool;
  is_case_ignorable : codepoint -> bool;
  (** [repr] of a float, given by its IEEE-754 binary64 bit pattern *)
  float_repr : Z -> str;
  (** [repr] of a string: quoting and escaping *)
  str_repr : str -> str
}.

Section Lower.

Context {R : Runtime}.

Definition CAPITAL_SIGMA : codepoint := 931%N.      (* U+03A3 *)
Definition FINAL_SIGMA : codepoint := 962%N.        (* U+03C2 *)
Definition SMALL_SIGMA : codepoint := 963%N.        (* U+03C3 *)

Fixpoint skip_case_ignorable (s : str) : str :=
  match s with
  | [] => []
  | c :: rest => if is_case_ignorable c then skip_case_ignorable rest else s
  end.

(** CPython's rule for U+03A3: it lowers to the final sigma when it is
    preceded by a cased letter and not followed by one, case-ignorable
    code points being skipped on both sides.  [before] is the text before
    the sigma, nearest code point first. *)
Definition handle_capital_sigma (before after : str) : codepoint :=
  let final_sigma :=
    match skip_case_ignorable before with
    | [] => false
    | c :: _ => is_cased c
    end in
  let final_sigma :=
    final_sigma &&
    match skip_case_ignorable after with
    | [] => true
    | c :: _ => negb (is_cased c)
    end in
  if final_sigma then FINAL_SIGMA else SMALL_SIGMA.

Definition lower_ucs4 (before : str) (c : codepoint) (after : str) : str :=
  if (c =? CAPITAL_SIGMA)%N then [handle_capital_sigma before after]
  else to_lower_full c.

Fixpoint do_lower (before s : str) : str :=
  match s with
  | [] => []
  | c :: rest => lower_ucs4 before c rest ++ do_lower (c :: before) rest
  end.

(** [s.lower()] *)
Definition lower (s : str) : str := do_lower [] s.

End Lower.

(** ** Values

    The values a decoded JSON payload is made of.  A [dict] keeps its
    insertion order (iterating it yields the keys in that order), hence the
    association list; its keys are strings.  A float is carried as its
    binary64 bit pattern. *)

Inductive pyval :=
| PNone
| PBool (b : bool)
| PInt (z : Z)
| PFloat (bits : Z)
| PStr (s : str)
| PList (items : list pyval)
| PDict (entries : list (str * pyval)).

Inductive type_error :=
| NotIterable          (* argument of type ... is not iterable *)
| NotSubscriptable     (* ... object is not subscriptable *)
| IndexNotInteger.     (* string / list indices must be integers *)

Inductive exn :=
| KeyError (key : str)
| TypeError (why : type_error)
| AttributeError (attr : str)
| ProviderError (detail : str).   (* raised inside the extraction client *)

Inductive result (A : Type) :=
| Ok (a : A)
| Raise (e : exn).

Arguments Ok {A} a.
Arguments Raise {A} e.

Definition bind {A B} (m : result A) (k : A -> result B) : result B :=
  match m with
  | Ok a => k a
  | Raise e => Raise e
  end.

Declare Scope py_scope.
Delimit Scope py_scope with py_.
Notation "x <- m ;; k" := (bind m (fun x => k))
  (at level 61, m at next level, right associativity) : py_scope.
Open Scope py_scope.

(** [bool(v)] *)
Definition truthy (v : pyval) : bool :=
  match v with
  | PNone => false
  | PBool b => b
  | PInt z => negb (z =? 0)%Z
  | PFloat bits => negb (Z.land bits (2 ^ 63 - 1) =? 0)%Z   (* neither 0.0 nor -0.0 *)
  | PStr s => match s with [] => false | _ => true end
  | PList items => match items with [] => false | _ => true end
  | PDict entries => match entries with [] => false | _ => true end
  end.

Fixpoint lookup (key : str) (entries : list (str * pyval)) : option pyval :=
  match entries with
  | [] => None
  | (k, v) :: rest => if str_eqb key k then Some v else lookup key rest
  end.

(** [v.get(key, default)]: among the values of [pyval] only a dict has the
    method. *)
Definition py_get (v : pyval) (key : str) (default : pyval) : result pyval :=
  match v with
  | PDict entries =>
    match lookup key entries with
    | Some x => Ok x
    | None => Ok default
    end
  | _ => Raise (AttributeError (py "get"))
  end.

(** [v[key]] for a string [key] *)
Definition py_getitem (v : pyval) (key : str) : result pyval :=
  match v with
  | PDict entries =>
    match lookup key entries with
    | Some x => Ok x
    | None => Raise (KeyError key)
    end
  | PStr _ | PList _ => Raise (TypeError IndexNotInteger)
  | _ => Raise (TypeError NotSubscriptable)
  end.

Definition is_str (s : str) (v : pyval) : bool :=
  match v with
  | PStr t => str_eqb s t
  | _ => false
  end.

(** [needle in v] for a string [needle] *)
Definition py_in (needle : str) (v : pyval) : result bool :=
  match v with
  | PDict entries =>
    Ok (match lookup needle entries with Some _ => true | None => false end)
  | PStr s => Ok (str_contains s needle)
  | PList items => Ok (existsb (is_str needle) items)
  | _ => Raise (TypeError NotIterable)
  end.

(** the items that [for x in v] runs through *)
Definition py_iter (v : pyval) : result (list pyval) :=
  match v with
  | PList items => Ok items
  | PStr s => Ok (map (fun c => PStr [c]) s)
  | PDict entries => Ok (map (fun kv => PStr (fst kv)) entries)
  | _ => Raise (TypeError NotIterable)
  end.

Fixpoint join (sep : str) (parts : list str) : str :=
  match parts with
  | [] => []
  | [p] => p
  | p :: rest => p ++ sep ++ join sep rest
  end.

(** [str(z)] for an int [z] that CPython converts to text. *)
Definition int_repr (z : Z) : str :=
  py (NilZero.string_of_int (Z.to_int z)).

(** CPython 3.11 with its default settings converts an int to text only when
    it has at most 4300 digits, the sign not counted, and raises a
    [ValueError] otherwise.  The ints of a decoded JSON payload are within
    the limit, the decoder having the same one; what is stated about the
    text of an argument is stated for values within it (see [value_text]). *)
Definition INT_MAX_STR_DIGITS : nat := 4300.

Definition int_digits (z : Z) : nat := List.length (int_repr (Z.abs z)).

Definition int_within_limit (z : Z) : bool :=
  (int_digits z <=? INT_MAX_STR_DIGITS)%nat.

Section Values.

Context {R : Runtime}.

(** [v.lower()]: only a string has the method. *)
Definition py_lower (v : pyval) : result str :=
  match v with
  | PStr s => Ok (lower s)
  | _ => Raise (AttributeError (py "lower"))
  end.

Fixpoint py_repr (v : pyval) : str :=
  match v with
  | PNone => py "None"
  | PBool true => py "True"
  | PBool false => py "False"
  | PInt z => int_repr z
  | PFloat bits => float_repr bits
  | PStr s => str_repr s
  | PList items => py "[" ++ join (py ", ") (map py_repr items) ++ py "]"
  | PDict entries =>
    py "{" ++
    join (py ", ")
      (map (fun kv => match kv with
                      | (k, x) => str_repr k ++ py ": " ++ py_repr x
                      end) entries) ++
    py "}"
  end.

(** What a replacement field [{v}] of an f-string produces: [format(v, "")],
    that is [str(v)], for a value whose ints are within the conversion
    limit. *)
Definition format_value (v : pyval) : str :=
  match v with
  | PStr s => s
  | _ => py_repr v
  end.

End Values.

(** ** Schema registry

    The pydantic models whose JSON schema is sent to the extraction service.
    A model is kept as its declaration; the key under which a field appears
    in the schema and in a conforming payload is its alias when it has one,
    its attribute name otherwise. *)

Inductive annotation :=
| AStr
| AFloat
| AListOf (model_name : str).

Record field_info := {
  attribute : str;
  field_type : annotation;
  description : option str;
  alias : option str
}.

Record model := {
  model_name : str;
  docstring : str;
  fields : list field_info
}.

Definition PropertyData : model := {|
  model_name := py "PropertyData";
  docstring := py "Schema for property data extraction";
  fields := [
    {| attribute := py "building_name"; field_type := AStr;
       description := Some (py "Name of the building/property");
       alias := Some (py "Building_name") |};
    {| attribute := py "property_type"; field_type := AStr;
       description := Some (py "Type of property (commercial, residential, etc)");
       alias := Some (py "Property_type") |};
    {| attribute := py "location_address"; field_type := AStr;
       description := Some (py "Complete address of the property");
       alias := None |};
    {| attribute := py "price"; field_type := AStr;
       description := Some (py "Price of the property");
       alias := Some (py "Price") |};
    {| attribute := py "description"; field_type := AStr;
       description := Some (py "Detailed description of the property");
       alias := Some (py "Description") |}
  ]
|}.

Definition PropertiesResponse : model := {|
  model_name := py "PropertiesResponse";
  docstring := py "Schema for multiple properties response";
  fields := [
    {| attribute := py "properties"; field_type := AListOf (py "PropertyData");
       description := Some (py "List of property details");
       alias := None |}
  ]
|}.

Definition LocationData : model := {|
  model_name := py "LocationData";
  docstring := py "Schema for location price trends";
  fields := [
    {| attribute := py "location"; field_type := AStr;
       description := None; alias := None |};
    {| attribute := py "price_per_sqft"; field_type := AFloat;
       description := None; alias := None |};
    {| attribute := py "percent_increase"; field_type := AFloat;
       description := None; alias := None |};
    {| attribute := py "rental_yield"; field_type := AFloat;
       description := None; alias := None |}
  ]
|}.

Definition LocationsResponse : model := {|
  model_name := py "LocationsResponse";
  docstring := py "Schema for multiple locations response";
  fields := [
    {| attribute := py "locations"; field_type := AListOf (py "LocationData");
       description := Some (py "List of location data points");
       alias := None |}
  ]
|}.

Definition schema_key (f : field_info) : str :=
  match alias f with
  | Some a => a
  | None => attribute f
  end.

(** [M.model_json_schema()]: the descriptor pydantic generates from the
    declaration of [M]; it is handed to the extraction service as it is. *)
Inductive json_schema :=
| model_json_schema (m : model).

(** ** The agent *)

(** The second argument of [FirecrawlApp.extract]. *)
Record extract_params := {
  prompt : str;
  schema : json_schema
}.

(** [self.firecrawl]: the extraction client is an external service; one call
    either returns the decoded response or raises. *)
Record PropertyFindingAgent := {
  firecrawl_extract : list str -> extract_params -> result pyval
}.

Definition NO_DATA : str :=
  py "⚠️ No property data could be extracted. Try with a different city or parameters.".

Definition PLACEHOLDER : str :=
  py "Sample location trend analysis (mocked for now).".

Definition INDENT : str := repeat 32%N 16.

(** The five keys the formatter reads, in the order it reads them. *)
Definition RECORD_KEYS : list str :=
  [py "Building_name"; py "location_address"; py "Property_type";
   py "Price"; py "Description"].

Definition HEADER : str := [LF] ++ py "### 🏠 ".
Definition SEPARATOR : str := [LF; LF] ++ py "---" ++ [LF].

Section Agent.

Context {R : Runtime}.

(** Lines 77-81: the URL patterns, from the lowercased city. *)
Definition property_urls (formatted_location : str) : list str :=
  [ py "https://www.squareyards.com/sale/property-for-sale-in-"
      ++ formatted_location ++ py "/*";
    py "https://www.99acres.com/property-in-"
      ++ formatted_location ++ py "-ffid/*";
    py "https://housing.com/in/buy/"
      ++ formatted_location ++ py "/" ++ formatted_location ].

(** Lines 86-90: the instruction. *)
Definition property_prompt
    (city property_type property_category max_price : pyval) : str :=
  [LF] ++ INDENT ++ py "Extract property listings for " ++ format_value city
    ++ py " where property type is " ++ format_value property_type
    ++ py " and category is " ++ format_value property_category
    ++ py "." ++ [LF] ++ INDENT
    ++ py "Only include properties under " ++ format_value max_price
    ++ py " Crores." ++ [LF] ++ INDENT
    ++ py "Each property must include name, address, price, description, and type."
    ++ [LF] ++ INDENT.

(** Lines 76-93, up to the call: what [find_properties] passes to
    [extract]. *)
Definition property_request
    (city max_price property_category property_type : pyval)
    : result (list str * extract_params) :=
  formatted_location <- py_lower city ;;
  Ok (property_urls formatted_location,
      {| prompt := property_prompt city property_type property_category max_price;
         schema := model_json_schema PropertiesResponse |}).

(** Lines 101-109: one pass of the loop body, the block appended for
    [prop]. *)
Definition format_block (prop : pyval) : result str :=
  building_name <- py_getitem prop (py "Building_name") ;;
  location_address <- py_getitem prop (py "location_address") ;;
  property_type <- py_getitem prop (py "Property_type") ;;
  price <- py_getitem prop (py "Price") ;;
  description <- py_getitem prop (py "Description") ;;
  Ok (HEADER ++ format_value building_name
      ++ [LF] ++ py "- 📍 **Location**: " ++ format_value location_address
      ++ [LF] ++ py "- 🏷️ **Type**: " ++ format_value property_type
      ++ [LF] ++ py "- 💰 **Price**: " ++ format_value price
      ++ [LF] ++ py "- 📝 **Description**: " ++ format_value description
      ++ SEPARATOR).

(** Lines 99-110: the loop, [formatted] being the text accumulated so
    far. *)
Fixpoint format_loop (formatted : str) (props : list pyval) : result str :=
  match props with
  | [] => Ok formatted
  | prop :: rest =>
    block <- format_block prop ;;
    format_loop (formatted ++ block) rest
  end.

(** Lines 95-110: what [find_properties] does with the response. *)
Definition format_response (response : pyval) : result str :=
  if negb (truthy response) then Ok NO_DATA else
  data <- py_get response (py "data") (PDict []) ;;
  found <- py_in (py "properties") data ;;
  if negb found then Ok NO_DATA else
  data <- py_getitem response (py "data") ;;
  properties <- py_getitem data (py "properties") ;;
  props <- py_iter properties ;;
  format_loop [] props.

Definition find_properties (self : PropertyFindingAgent)
    (city max_price property_category property_type : pyval) : result str :=
  request <- property_request city max_price property_category property_type ;;
  response <- firecrawl_extract self (fst request) (snd request) ;;
  format_response response.

Definition trends_urls (formatted_location : str) : list str :=
  [ py "https://www.99acres.com/property-rates-and-price-trends-in-"
      ++ formatted_location ++ py "-prffid/*" ].

Definition trends_params : extract_params :=
  {| prompt := py "Extract price trends data for ALL major localities in the city.";
     schema := model_json_schema LocationsResponse |}.

Definition get_location_trends (self : PropertyFindingAgent) (city : pyval)
    : result str :=
  formatted_location <- py_lower city ;;
  raw_response <- firecrawl_extract self (trends_urls formatted_location)
                    trends_params ;;
  Ok PLACEHOLDER.

End Agent.

(** ** A runtime for ASCII text

    An instance of [Runtime] on which the model can be run: the case tables
    restricted to ASCII, [repr] of a float as its exact decimal expansion
    (which is what CPython prints when that expansion has at most fifteen
    significant digits and the magnitude lies between 1e-4 and 1e16), and
    [repr] of a string of printable ASCII. *)

Module AsciiRuntime.

Definition is_upper (c : codepoint) : bool := ((65 <=? c) && (c <=? 90))%N.
Definition is_lower (c : codepoint) : bool := ((97 <=? c) && (c <=? 122))%N.

Definition to_lower_full (c : codepoint) : str :=
  if is_upper c then [(c + 32)%N] else [c].

Definition is_cased (c : codepoint) : bool := is_upper c || is_lower c.

(** ' . : ^ ` *)
Definition is_case_ignorable (c : codepoint) : bool :=
  existsb (N.eqb c) [39; 46; 58; 94; 96]%N.

Fixpoint strip_zeros (rev_digits : str) : str :=
  match rev_digits with
  | 48%N :: rest => strip_zeros rest
  | _ => rev_digits
  end.

(** the [k] decimal digits of [n / 10^k], without trailing zeros *)
Definition fraction_digits (n : Z) (k : nat) : str :=
  let digits := int_repr n in
  let padded := repeat 48%N (k - List.length digits) ++ digits in
  match rev (strip_zeros (rev padded)) with
  | [] => py "0"
  | ds => ds
  end.

Definition float_repr (bits : Z) : str :=
  let sign := if Z.testbit bits 63 then py "-" else [] in
  let e := Z.land (Z.shiftr bits 52) 2047 in
  let m := Z.land bits (2 ^ 52 - 1) in
  if (e =? 2047)%Z then
    if (m =? 0)%Z then sign ++ py "inf" else py "nan"
  else
    let mant := if (e =? 0)%Z then m else (2 ^ 52 + m)%Z in
    let exp2 := if (e =? 0)%Z then (-1074)%Z else (e - 1075)%Z in
    if (0 <=? exp2)%Z then sign ++ int_repr (mant * 2 ^ exp2) ++ py ".0"
    else
      let k := (- exp2)%Z in
      sign ++ int_repr (mant / 2 ^ k) ++ py "."
        ++ fraction_digits ((mant mod 2 ^ k) * 5 ^ k) (Z.to_nat k).

Definition escape (quote c : codepoint) : str :=
  if (c =? 92)%N then [92; 92]%N
  else if (c =? quote)%N then [92%N; quote]
  else if (c =? 10)%N then [92; 110]%N
  else if (c =? 13)%N then [92; 114]%N
  else if (c =? 9)%N then [92; 116]%N
  else [c].

Definition str_repr (s : str) : str :=
  let quote :=
    if existsb (N.eqb 39) s && negb (existsb (N.eqb 34) s)
    then 34%N else 39%N in
  [quote] ++ flat_map (escape quote) s ++ [quote].

Definition runtime : Runtime :=
  Build_Runtime to_lower_full is_cased is_case_ignorable float_repr str_repr.

End AsciiRuntime.

(** ** The vocabulary of the properties *)

Section Vocabulary.

Context {R : Runtime}.

(** A code point that [lower] leaves alone wherever it stands. *)
Definition stable (c : codepoint) : Prop :=
  c <> CAPITAL_SIGMA /\ to_lower_full c = [c].

(** What the proof of idempotence needs of the Unicode tables: a lowercase
    mapping never produces a code point that has a lowercase mapping of its
    own, and the two small sigmas are such code points. *)
Definition lowercase_closed : Prop :=
  (forall c c', c <> CAPITAL_SIGMA -> In c' (to_lower_full c) -> stable c')
  /\ stable FINAL_SIGMA /\ stable SMALL_SIGMA.

(** The outcome of the extraction call made by [find_properties]. *)
Definition property_extraction (self : PropertyFindingAgent)
    (city max_price property_category property_type : pyval) : result pyval :=
  request <- property_request city max_price property_category property_type ;;
  firecrawl_extract self (fst request) (snd request).

(** The outcome of the extraction call made by [get_location_trends]. *)
Definition trends_extraction (self : PropertyFindingAgent) (city : pyval)
    : result pyval :=
  formatted_location <- py_lower city ;;
  firecrawl_extract self (trends_urls formatted_location) trends_params.

(** The response is falsy, or it is a mapping whose ["data"] (an empty
    mapping when the key is absent) has no key ["properties"]. *)
Definition lacks_properties (response : pyval) : Prop :=
  truthy response = false
  \/ exists entries,
       response = PDict entries
       /\ (lookup (py "data") entries = None
           \/ exists data,
                lookup (py "data") entries = Some (PDict data)
                /\ lookup (py "properties") data = None).

(** The response carries the list [records] under ["data"]["properties"]. *)
Definition has_properties (response : pyval) (records : list pyval) : Prop :=
  exists entries data,
    response = PDict entries
    /\ lookup (py "data") entries = Some (PDict data)
    /\ lookup (py "properties") data = Some (PList records).

(** A record with the five keys the formatter reads. *)
Definition well_formed_record (prop : pyval) : Prop :=
  exists fields,
    prop = PDict fields
    /\ Forall (fun key => lookup key fields <> None) RECORD_KEYS.

(** The text of a scalar value, read off the value itself: a string is its
    own text, an int within the conversion limit its decimal digits, a float
    its [repr], and [None], [True], [False] their names. *)
Definition value_text (v : pyval) : option str :=
  match v with
  | PStr s => Some s
  | PInt z => if int_within_limit z then Some (int_repr z) else None
  | PFloat bits => Some (float_repr bits)
  | PNone => Some (py "None")
  | PBool true => Some (py "True")
  | PBool false => Some (py "False")
  | PList _ | PDict _ => None
  end.

(** [block] is the section block of [prop]: the header followed by the
    building name, then the four labelled lines and the separator, with
    every field of the record occurring in it; a field that is a string, or
    another scalar, occurs as its own text. *)
Definition section_block (prop : pyval) (block : str) : Prop :=
  exists fields building_name location_address property_type price description,
    prop = PDict fields
    /\ lookup (py "Building_name") fields = Some building_name
    /\ lookup (py "location_address") fields = Some location_address
    /\ lookup (py "Property_type") fields = Some property_type
    /\ lookup (py "Price") fields = Some price
    /\ lookup (py "Description") fields = Some description
    /\ block =
       HEADER ++ format_value building_name
         ++ [LF] ++ py "- 📍 **Location**: " ++ format_value location_address
         ++ [LF] ++ py "- 🏷️ **Type**: " ++ format_value property_type
         ++ [LF] ++ py "- 💰 **Price**: " ++ format_value price
         ++ [LF] ++ py "- 📝 **Description**: " ++ format_value description
         ++ SEPARATOR
    /\ substring (format_value building_name) block
    /\ substring (format_value location_address) block
    /\ substring (format_value property_type) block
    /\ substring (format_value price) block
    /\ substring (format_value description) block
    /\ (forall text, value_text building_name = Some text ->
        substring text block)
    /\ (forall text, value_text location_address = Some text ->
        substring text block)
    /\ (forall text, value_text property_type = Some text ->
        substring text block)
    /\ (forall text, value_text price = Some text -> substring text block)
    /\ (forall text, value_text description = Some text ->
        substring text block).

(** The exceptions a failed field access [prop[key]] raises. *)
Definition key_access_error (e : exn) : Prop :=
  (exists key, In key RECORD_KEYS /\ e = KeyError key)
  \/ (exists why, e = TypeError why).

End Vocabulary.

(** ** Sample data *)

(** A provider that answers every request with [response]. *)
Definition answering (response : pyval) : PropertyFindingAgent :=
  {| firecrawl_extract := fun _ _ => Ok response |}.

(** Responses used to run the model: the envelope of the extraction service
    around a payload, and two property records. *)
Definition envelope (data : pyval) : pyval :=
  PDict [(py "success", PBool true); (py "data", data);
         (py "status", PStr (py "completed"));
         (py "expiresAt", PStr (py "2025-01-01T00:00:00.000Z"))].

Definition skyline_towers : pyval :=
  PDict [(py "Building_name", PStr (py "Skyline Towers"));
         (py "Property_type", PStr (py "Flat"));
         (py "location_address", PStr (py "Bandra West"));
         (py "Price", PStr (py "2.1 Cr"));
         (py "Description", PStr (py "2BHK sea view"))].

Definition palm_court : pyval :=
  PDict [(py "Building_name", PStr (py "Palm Court"));
         (py "Property_type", PStr (py "Individual House"));
         (py "location_address", PStr (py "Juhu"));
         (py "Price", PStr (py "9 Cr"));
         (py "Description", PStr (py "Villa with garden"))].

(** The same record under the attribute names of the schema instead of its
    aliases. *)
Definition skyline_towers_unaliased : pyval :=
  PDict [(py "building_name", PStr (py "Skyline Towers"));
         (py "property_type", PStr (py "Flat"));
         (py "location_address", PStr (py "Bandra West"));
         (py "price", PStr (py "2.1 Cr"));
         (py "description", PStr (py "2BHK sea view"))].

(** ** The page

    What the script shows, as the sequence of the displaying Streamlit calls
    it makes.  The input widgets (text input, number input, select boxes,
    button) are represented by the values they return. *)

Inductive container :=
| Sidebar
| Expander (label : str).

Inductive st_call :=
| st_set_page_config (page_title page_icon layout : str)
| st_title (body : str)
| st_error (body : str)
| st_success (body : str)
| st_subheader (body : str)
| st_markdown (body : str)
| st_spinner (text : str)                       (* entering [with st.spinner] *)
| st_within (place : container) (call : st_call).

Definition KEYS_MISSING : str :=
  py "❌ API keys are missing from the .env file. Please add them or input manually.".

Definition AGENT_NOT_INITIALIZED : str :=
  py "⚠️ Agent not initialized. Check API keys.".

Definition AN_ERROR_OCCURRED : str := py "❌ An error occurred: ".

(** *** Lines 13-26: the API keys

    [os.getenv] gives [None] or a string, [st.text_input] a string. *)

Definition getenv (value : option str) : pyval :=
  match value with
  | Some s => PStr s
  | None => PNone
  end.

(** How the top of the script ends: [st.stop()], or the two module globals
    with which the rest of the script runs. *)
Inductive startup :=
| Stopped (shown : list st_call)
| Started (shown : list st_call) (FIRECRAWL_API_KEY OPENAI_API_KEY : pyval).

Definition load_api_keys (env_firecrawl env_openai : option str)
    (input_firecrawl input_openai : str) : startup :=
  let FIRECRAWL_API_KEY := getenv env_firecrawl in
  let OPENAI_API_KEY := getenv env_openai in
  let '(shown, FIRECRAWL_API_KEY, OPENAI_API_KEY) :=
    if negb (truthy FIRECRAWL_API_KEY) || negb (truthy OPENAI_API_KEY)
    then ([st_error KEYS_MISSING], PStr input_firecrawl, PStr input_openai)
    else ([], FIRECRAWL_API_KEY, OPENAI_API_KEY) in
  if negb (truthy FIRECRAWL_API_KEY) || negb (truthy OPENAI_API_KEY)
  then Stopped shown
  else Started shown FIRECRAWL_API_KEY OPENAI_API_KEY.

(** *** Lines 61-67 and 124-130: the agent of the session *)

(** [Agent(model=OpenAIChat(id=..., api_key=...), markdown=True,
    description=...)] *)
Record chat_agent := {
  chat_model_id : pyval;
  chat_api_key : pyval;
  chat_markdown : bool;
  chat_description : str
}.

(** The object [PropertyFindingAgent(...)] builds: [self.agent] next to the
    extraction client [self.firecrawl] that the two operations use. *)
Record agent_object := {
  self_agent : chat_agent;
  self_firecrawl : PropertyFindingAgent
}.

(** The slot [st.session_state.property_agent]; [None] when the key is
    absent. *)
Definition session_state := option agent_object.

(** The values of the widgets of one run of the script. *)
Record widgets := {
  model_choice : str;            (* "o3-mini" or "gpt-4o" *)
  city_text : str;
  category_choice : str;         (* "Residential" or "Commercial" *)
  max_price_number : Z;          (* the float of the number input, as bits *)
  type_choice : str;             (* "Flat" or "Individual House" *)
  search_clicked : bool
}.

Definition is_scalar (v : pyval) : bool :=
  match v with
  | PNone | PBool _ | PInt _ | PFloat _ => true
  | _ => false
  end.

Section Script.

Context {R : Runtime}.

(** [FirecrawlApp(api_key=...)]: the client bound to a key.  The two
    library constructors [__init__] calls are taken to return. *)
Variable FirecrawlApp : pyval -> PropertyFindingAgent.

(** [str(e)], the message of an exception. *)
Variable exn_str : exn -> str.

(** [PropertyFindingAgent.__init__] *)
Definition PropertyFindingAgent_init
    (firecrawl_api_key openai_api_key model_id : pyval) : agent_object :=
  {| self_agent :=
       {| chat_model_id := model_id;
          chat_api_key := openai_api_key;
          chat_markdown := true;
          chat_description :=
            py "I am a real estate expert who helps find and analyze properties based on user preferences." |};
     self_firecrawl := FirecrawlApp firecrawl_api_key |}.

Definition create_property_agent (FIRECRAWL_API_KEY OPENAI_API_KEY : pyval)
    (state : session_state) (model_id : pyval) : session_state :=
  match state with
  | Some _ => state
  | None =>
    Some (PropertyFindingAgent_init FIRECRAWL_API_KEY OPENAI_API_KEY model_id)
  end.

(** Lines 165-182: the [try] block of [main] with its handler; what has been
    shown before an exception stays on the page. *)
Definition search (self : PropertyFindingAgent) (w : widgets) : list st_call :=
  st_spinner (py "🔍 Searching for properties...") ::
  match find_properties self (PStr (city_text w)) (PFloat (max_price_number w))
          (PStr (category_choice w)) (PStr (type_choice w)) with
  | Raise e => [st_error (AN_ERROR_OCCURRED ++ exn_str e)]
  | Ok property_results =>
    st_success (py "✅ Property search completed!") ::
    st_subheader (py "🏘️ Property Recommendations") ::
    st_markdown property_results ::
    st_spinner (py "📊 Analyzing location trends...") ::
    match get_location_trends self (PStr (city_text w)) with
    | Raise e => [st_error (AN_ERROR_OCCURRED ++ exn_str e)]
    | Ok location_trends =>
      [st_within (Expander (py "📈 Location Trends Analysis"))
         (st_markdown location_trends)]
    end
  end.

(** Lines 134-149: what every run shows first. *)
Definition page_head : list st_call :=
  [st_set_page_config (py "AI Real Estate Agent") (py "🏠") (py "wide");
   st_title (py "Smart Property Search Agent");
   st_within Sidebar (st_title (py "⚙️ Settings"))].

Definition main (FIRECRAWL_API_KEY OPENAI_API_KEY : pyval)
    (state : session_state) (w : widgets) : session_state * list st_call :=
  let state :=
    create_property_agent FIRECRAWL_API_KEY OPENAI_API_KEY state
      (PStr (model_choice w)) in
  if search_clicked w then
    match state with
    | None => (state, page_head ++ [st_error AGENT_NOT_INITIALIZED])
    | Some agent => (state, page_head ++ search (self_firecrawl agent) w)
    end
  else (state, page_head).

(** One run of the whole script: the keys, then [main]. *)
Definition script (env_firecrawl env_openai : option str)
    (input_firecrawl input_openai : str)
    (state : session_state) (w : widgets) : session_state * list st_call :=
  match load_api_keys env_firecrawl env_openai input_firecrawl input_openai with
  | Stopped shown => (state, shown)
  | Started shown FIRECRAWL_API_KEY OPENAI_API_KEY =>
    let '(state, calls) := main FIRECRAWL_API_KEY OPENAI_API_KEY state w in
    (state, shown ++ calls)
  end.

End Script.

(** ** More vocabulary *)

Section Outcomes.

Context {R : Runtime}.

Definition is_string (v : pyval) : bool :=
  match v with PStr _ => true | _ => false end.

Definition is_mapping (v : pyval) : bool :=
  match v with PDict _ => true | _ => false end.

Definition is_list (v : pyval) : bool :=
  match v with PList _ => true | _ => false end.

(** The response carries [properties], of whatever type, under
    ["data"]["properties"]. *)
Definition payload_properties (response properties : pyval) : Prop :=
  exists entries data,
    response = PDict entries
    /\ lookup (py "data") entries = Some (PDict data)
    /\ lookup (py "properties") data = Some properties.

(** The extraction client a run of [main] searches with: that of the agent
    of the session, or of the agent it creates. *)
Definition client_of (FirecrawlApp : pyval -> PropertyFindingAgent)
    (FIRECRAWL_API_KEY : pyval) (state : session_state) : PropertyFindingAgent :=
  match state with
  | Some agent => self_firecrawl agent
  | None => FirecrawlApp FIRECRAWL_API_KEY
  end.

Definition nonempty_string (v : pyval) : bool :=
  match v with
  | PStr (_ :: _) => true
  | _ => false
  end.


(** Whether a ["data"] that is a string or a list passes the test
    ["properties" in data]. *)
Definition mentions_properties (data : pyval) : option bool :=
  match data with
  | PStr s => Some (str_contains s (py "properties"))
  | PList items => Some (existsb (is_str (py "properties")) items)
  | _ => None
  end.

(** What the loop makes of a ["properties"] that is not a list. *)
Definition loop_over_non_list (properties : pyval) : result str :=
  match properties with
  | PStr [] | PDict [] => Ok []
  | PStr _ | PDict _ => Raise (TypeError IndexNotInteger)
  | _ => Raise (TypeError NotIterable)
  end.

(** The first of the five keys, in reading order, that [fields] lacks. *)
Definition first_missing (fields : list (str * pyval)) : option str :=
  find (fun key => match lookup key fields with
                   | None => true
                   | Some _ => false
                   end) RECORD_KEYS.

(** What [prop[key]] raises when [prop] is not a mapping. *)
Definition subscript_error (prop : pyval) : type_error :=
  match prop with
  | PStr _ | PList _ => IndexNotInteger
  | _ => NotSubscriptable
  end.

(** Two records with the same values under the five keys. *)
Definition same_fields (p q : pyval) : Prop :=
  exists f g,
    p = PDict f /\ q = PDict g
    /\ forall key, In key RECORD_KEYS -> lookup key f = lookup key g.

End Outcomes.

(** The first sample record without its price, and with two more keys. *)
Definition skyline_towers_unpriced : pyval :=
  PDict [(py "Building_name", PStr (py "Skyline Towers"));
         (py "Property_type", PStr (py "Flat"));
         (py "location_address", PStr (py "Bandra West"));
         (py "Description", PStr (py "2BHK sea view"))].

Definition skyline_towers_annotated : pyval :=
  PDict [(py "source", PStr (py "99acres"));
         (py "Building_name", PStr (py "Skyline Towers"));
         (py "Property_type", PStr (py "Flat"));
         (py "location_address", PStr (py "Bandra West"));
         (py "Price", PStr (py "2.1 Cr"));
         (py "Description", PStr (py "2BHK sea view"));
         (py "area_sqft", PInt 850)].

(** A response that reports a failure and still carries records. *)
Definition failed_envelope (records : list pyval) : pyval :=
  PDict [(py "data", PDict [(py "total", PInt 1);
                            (py "properties", PList records)]);
         (py "success", PBool false)].

(** A message for each exception, for running the page on the samples. *)
Definition sample_exn_str (e : exn) : str :=
  match e with
  | KeyError key => AsciiRuntime.str_repr key
  | TypeError NotIterable => py "object is not iterable"
  | TypeError NotSubscriptable => py "object is not subscriptable"
  | TypeError IndexNotInteger => py "indices must be integers"
  | AttributeError attr =>
    py "object has no attribute " ++ AsciiRuntime.str_repr attr
  | ProviderError detail => detail
  end.

(** A provider that raises on every request. *)
Definition failing (e : exn) : PropertyFindingAgent :=
  {| firecrawl_extract := fun _ _ => Raise e |}.

(** A provider that answers the property search with [properties] and the
    trend request (the one with a single URL) with [trends]. *)
Definition answering_both (properties trends : result pyval)
    : PropertyFindingAgent :=
  {| firecrawl_extract := fun urls _ =>
       match urls with
       | [_] => trends
       | _ => properties
       end |}.

(** A client constructor whose clients answer like [answering_both],
    whatever the key. *)
Definition sample_app (properties trends : result pyval)
    : pyval -> PropertyFindingAgent :=
  fun _ => answering_both properties trends.

Definition mumbai_search : widgets :=
  {| model_choice := py "o3-mini";
     city_text := py "Mumbai";
     category_choice := py "Residential";
     max_price_number := 0x4004000000000000;
     type_choice := py "Flat";
     search_clicked := true |}.

(** * Properties *)

(** ** Substrings *)

Lemma substring_refl (s : str) : substring s s.
Proof. exists [], []. now rewrite app_nil_r. Qed.

Lemma substring_app_l (n a b : str) : substring n a -> substring n (a ++ b).
Proof.
  intros (p & q & ->). exists p, (q ++ b). now rewrite <- !app_assoc.
Qed.

Lemma substring_app_r (n a b : str) : substring n b -> substring n (a ++ b).
Proof.
  intros (p & q & ->). exists (a ++ p), q. now rewrite <- !app_assoc.
Qed.

Lemma substring_head (n rest : str) : substring n (n ++ rest).
Proof. exists [], rest. reflexivity. Qed.

Create HintDb substr.
#[local] Hint Resolve substring_refl substring_head substring_app_l
  substring_app_r : substr.


Lemma ends_with_app (a b suffix : str) :
  ends_with b suffix -> ends_with (a ++ b) suffix.
Proof. intros (p & ->). exists (a ++ p). now rewrite app_assoc. Qed.

Lemma ends_with_refl (s : str) : ends_with s s.
Proof. now exists []. Qed.

Lemma ends_with_last (s before : str) (c d : codepoint) :
  ends_with s (before ++ [c]) -> last s d = c.
Proof.
  intros (p & ->). rewrite app_assoc. apply last_last.
Qed.

(** ** Lowercasing *)

Section LowerFacts.

Context {R : Runtime}.

Lemma lower_ucs4_stable (before after : str) (c : codepoint) :
  stable c -> lower_ucs4 before c after = [c].
Proof.
  intros [Hc Hl]. unfold lower_ucs4.
  destruct (N.eqb_spec c CAPITAL_SIGMA); [contradiction | exact Hl].
Qed.

Lemma do_lower_fixes_stable (s : str) :
  Forall stable s -> forall before, do_lower before s = s.
Proof.
  induction 1 as [| c rest Hc _ IH]; intro b; simpl.
  - reflexivity.
  - now rewrite (lower_ucs4_stable b rest Hc), IH.
Qed.

Lemma handle_capital_sigma_stable (before after : str) :
  lowercase_closed -> stable (handle_capital_sigma before after).
Proof.
  intros (_ & Hf & Hs). unfold handle_capital_sigma.
  match goal with |- stable (if ?b then _ else _) => destruct b end;
    assumption.
Qed.

Lemma lower_ucs4_yields_stable (before after : str) (c : codepoint) :
  lowercase_closed -> Forall stable (lower_ucs4 before c after).
Proof.
  intro H. unfold lower_ucs4.
  destruct (N.eqb_spec c CAPITAL_SIGMA) as [-> | Hc].
  - constructor; [now apply handle_capital_sigma_stable | constructor].
  - apply Forall_forall. intros c' Hin. destruct H as (H & _). eauto.
Qed.

Lemma do_lower_yields_stable (s : str) :
  lowercase_closed -> forall before, Forall stable (do_lower before s).
Proof.
  intro H. induction s as [| c rest IH]; intro b; simpl.
  - constructor.
  - apply Forall_app. split; [now apply lower_ucs4_yields_stable | apply IH].
Qed.

End LowerFacts.

Lemma ascii_to_lower_full_stable (c c' : codepoint) :
  c <> CAPITAL_SIGMA -> In c' (AsciiRuntime.to_lower_full c) ->
  c' <> CAPITAL_SIGMA /\ AsciiRuntime.to_lower_full c' = [c'].
Proof.
  unfold AsciiRuntime.to_lower_full, AsciiRuntime.is_upper, CAPITAL_SIGMA.
  intros Hc Hin.
  destruct ((65 <=? c)%N && (c <=? 90)%N) eqn:E;
    destruct Hin as [<- | []].
  - apply andb_true_iff in E as [E1 E2]. apply N.leb_le in E1, E2.
    split; [lia |].
    destruct (N.leb_spec (c + 32) 90); [lia |].
    now rewrite andb_false_r.
  - split; [exact Hc | now rewrite E].
Qed.

Lemma ascii_lowercase_closed : @lowercase_closed AsciiRuntime.runtime.
Proof.
  split; [| split].
  - intros c c'. apply ascii_to_lower_full_stable.
  - split; [discriminate | reflexivity].
  - split; [discriminate | reflexivity].
Qed.

(** On ASCII tables the closure holds, so lowercasing twice is lowercasing
    once for every string. *)
Corollary ascii_lower_twice (s : str) :
  @lower AsciiRuntime.runtime (@lower AsciiRuntime.runtime s)
  = @lower AsciiRuntime.runtime s.
Proof.
  unfold lower. apply do_lower_fixes_stable.
  apply do_lower_yields_stable. exact ascii_lowercase_closed.
Qed.

(** C9. Deriving the city token is idempotent: lowercasing a lowercased
    string changes nothing, [lower (lower s) = lower s], for every string
    [s] (over Unicode tables in which a lowercase mapping yields only code
    points without a lowercase mapping of their own). *)
Theorem lower_idempotent {R : Runtime} (H : lowercase_closed) (s : str) :
  lower (lower s) = lower s
  /\ (formatted_location <- py_lower (PStr s) ;; py_lower (PStr formatted_location))
     = py_lower (PStr s).
Proof.
  assert (E : lower (lower s) = lower s).
  { unfold lower. apply do_lower_fixes_stable. now apply do_lower_yields_stable. }
  split; [exact E | simpl; now rewrite E].
Qed.

Lemma lower_idempotent_witness :
  @lowercase_closed AsciiRuntime.runtime
  /\ @lower AsciiRuntime.runtime (@lower AsciiRuntime.runtime (py "Navi Mumbai"))
     = @lower AsciiRuntime.runtime (py "Navi Mumbai").
Proof.
  split.
  - exact ascii_lowercase_closed.
  - exact (proj1 (@lower_idempotent AsciiRuntime.runtime ascii_lowercase_closed
                    (py "Navi Mumbai"))).
Defined.

(** ** The text of a value *)

Lemma value_text_format {R : Runtime} (v : pyval) (text : str) :
  value_text v = Some text -> format_value v = text.
Proof.
  destruct v as [| [|] | z | bits | s | items | entries];
    cbn [value_text format_value py_repr]; try discriminate;
    try (intro H; injection H as <-; reflexivity).
  destruct (int_within_limit z); [| discriminate].
  intro H; injection H as <-; reflexivity.
Qed.

(** ** The request builder *)

Section RequestFacts.

Context {R : Runtime}.

Lemma property_request_str (s : str) (max_price category type : pyval) :
  property_request (PStr s) max_price category type =
  Ok (property_urls (lower s),
      {| prompt := property_prompt (PStr s) type category max_price;
         schema := model_json_schema PropertiesResponse |}).
Proof. reflexivity. Qed.

(** [find_properties] on a city string: the request goes to the client and
    the outcome is what the formatter makes of the answer. *)
Lemma find_properties_str (self : PropertyFindingAgent) (s : str)
    (max_price category type : pyval) :
  find_properties self (PStr s) max_price category type =
  (response <- firecrawl_extract self (property_urls (lower s))
                 {| prompt := property_prompt (PStr s) type category max_price;
                    schema := model_json_schema PropertiesResponse |} ;;
   format_response response).
Proof. reflexivity. Qed.

End RequestFacts.

(** C5, as the code has it.  For every city string, [find_properties] builds
    exactly three URL patterns from the lowercased city and three fixed
    templates, one per listings source.  The first two end with the wildcard
    [/*]; the third, for housing.com, carries the token twice and ends with
    the token itself, no wildcard being appended. *)
Theorem three_url_patterns {R : Runtime} (self : PropertyFindingAgent)
    (s : str) (max_price category type : pyval) :
  let token := lower s in
  let u1 := py "https://www.squareyards.com/sale/property-for-sale-in-"
              ++ token ++ py "/*" in
  let u2 := py "https://www.99acres.com/property-in-" ++ token ++ py "-ffid/*" in
  let u3 := py "https://housing.com/in/buy/" ++ token ++ py "/" ++ token in
  exists params,
    property_request (PStr s) max_price category type = Ok ([u1; u2; u3], params)
    /\ find_properties self (PStr s) max_price category type
       = (response <- firecrawl_extract self [u1; u2; u3] params ;;
          format_response response)
    /\ ends_with u1 (py "/*")
    /\ ends_with u2 (py "/*")
    /\ ends_with u3 (py "/" ++ token).
Proof.
  intros. eexists. split; [reflexivity |]. split; [reflexivity |].
  repeat split.
  - subst u1. rewrite app_assoc. eexists; reflexivity.
  - subst u2.
    exists (py "https://www.99acres.com/property-in-" ++ token ++ py "-ffid").
    now rewrite <- !app_assoc.
  - subst u3. exists (py "https://housing.com/in/buy/" ++ token).
    now rewrite <- app_assoc.
Qed.

(** C5, as stated, fails: for the city "Mumbai" one of the three URL
    patterns, the housing.com one, does not end with a wildcard. *)
Lemma third_url_lacks_wildcard :
  exists urls params url,
    @property_request AsciiRuntime.runtime (PStr (py "Mumbai"))
      (PFloat 0x4004000000000000) (PStr (py "Residential")) (PStr (py "Flat"))
    = Ok (urls, params)
    /\ In url urls
    /\ url = py "https://housing.com/in/buy/mumbai/mumbai"
    /\ ~ ends_with url (py "*").
Proof.
  eexists _, _, _. split; [reflexivity |].
  split; [right; right; left; reflexivity |].
  split; [vm_compute; reflexivity |].
  intro H.
  pose proof (@ends_with_last _ [] 42%N 0%N H) as E.
  vm_compute in E. discriminate E.
Qed.

(** C6. The URL patterns depend on the city through its lowercased form
    only: two calls whose cities lowercase to the same token build the same
    list of three URL strings, whatever their other arguments. *)
Theorem urls_determined_by_token {R : Runtime} (s1 s2 : str)
    (max_price1 category1 type1 max_price2 category2 type2 : pyval) :
  lower s1 = lower s2 ->
  exists urls params1 params2,
    property_request (PStr s1) max_price1 category1 type1 = Ok (urls, params1)
    /\ property_request (PStr s2) max_price2 category2 type2 = Ok (urls, params2)
    /\ List.length urls = 3
    /\ (forall self : PropertyFindingAgent,
          find_properties self (PStr s1) max_price1 category1 type1
          = (response <- firecrawl_extract self urls params1 ;;
             format_response response)
          /\ find_properties self (PStr s2) max_price2 category2 type2
             = (response <- firecrawl_extract self urls params2 ;;
                format_response response)).
Proof.
  intro E. eexists _, _, _.
  split; [reflexivity |].
  split; [rewrite property_request_str, <- E; reflexivity |].
  split; [reflexivity |].
  intro self. split; [reflexivity |].
  rewrite find_properties_str, <- E. reflexivity.
Qed.

Lemma urls_determined_by_token_witness :
  @lower AsciiRuntime.runtime (py "Mumbai") = @lower AsciiRuntime.runtime (py "MUMBAI")
  /\ exists urls params1 params2,
       @property_request AsciiRuntime.runtime (PStr (py "Mumbai"))
         (PInt 2) (PStr (py "Residential")) (PStr (py "Flat"))
       = Ok (urls, params1)
       /\ @property_request AsciiRuntime.runtime (PStr (py "MUMBAI"))
            (PInt 7) (PStr (py "Commercial")) (PStr (py "Individual House"))
          = Ok (urls, params2)
       /\ List.length urls = 3.
Proof.
  assert (E : @lower AsciiRuntime.runtime (py "Mumbai")
              = @lower AsciiRuntime.runtime (py "MUMBAI")) by reflexivity.
  split; [exact E |].
  destruct (@urls_determined_by_token AsciiRuntime.runtime
              (py "Mumbai") (py "MUMBAI")
              (PInt 2) (PStr (py "Residential")) (PStr (py "Flat"))
              (PInt 7) (PStr (py "Commercial")) (PStr (py "Individual House")) E)
    as (urls & p1 & p2 & H1 & H2 & H3 & _).
  exists urls, p1, p2. auto.
Defined.

Lemma property_prompt_str {R : Runtime} (city type category : str)
    (max_price : pyval) :
  property_prompt (PStr city) (PStr type) (PStr category) max_price =
  ([LF] ++ INDENT ++ py "Extract property listings for ") ++ city
    ++ py " where property type is " ++ type
    ++ py " and category is " ++ category
    ++ (py "." ++ [LF] ++ INDENT ++ py "Only include properties under ")
    ++ format_value max_price
    ++ (py " Crores." ++ [LF] ++ INDENT
        ++ py "Each property must include name, address, price, description, and type."
        ++ [LF] ++ INDENT).
Proof.
  unfold property_prompt. cbn [format_value].
  now rewrite <- !app_assoc.
Qed.

(** C7. For every input whose maximum price has a text (a float, an int
    within the conversion limit), the instruction sent to the extraction
    service contains the city as given (not its lowercased form), the
    property type, the property category and the text of the maximum price,
    each embedded verbatim between fixed pieces of text. *)
Theorem prompt_embeds_arguments {R : Runtime}
    (city property_category property_type : str) (max_price : pyval)
    (price : str) :
  value_text max_price = Some price ->
  exists urls params,
    property_request (PStr city) max_price (PStr property_category)
      (PStr property_type) = Ok (urls, params)
    /\ prompt params =
       ([LF] ++ INDENT ++ py "Extract property listings for ") ++ city
         ++ py " where property type is " ++ property_type
         ++ py " and category is " ++ property_category
         ++ (py "." ++ [LF] ++ INDENT ++ py "Only include properties under ")
         ++ price
         ++ (py " Crores." ++ [LF] ++ INDENT
             ++ py "Each property must include name, address, price, description, and type."
             ++ [LF] ++ INDENT)
    /\ substring city (prompt params)
    /\ substring property_type (prompt params)
    /\ substring property_category (prompt params)
    /\ substring price (prompt params).
Proof.
  intro P. eexists _, _. split; [reflexivity |]. cbn [prompt].
  rewrite property_prompt_str, (value_text_format _ P). split; [reflexivity |].
  repeat split; auto 12 with substr.
Qed.

Lemma prompt_embeds_arguments_witness :
  @value_text AsciiRuntime.runtime (PFloat 0x4004000000000000)
  = Some (py "2.5")
  /\ exists urls params,
       @property_request AsciiRuntime.runtime (PStr (py "Mumbai"))
         (PFloat 0x4004000000000000) (PStr (py "Residential"))
         (PStr (py "Flat")) = Ok (urls, params)
       /\ substring (py "Mumbai") (prompt params)
       /\ substring (py "Flat") (prompt params)
       /\ substring (py "Residential") (prompt params)
       /\ substring (py "2.5") (prompt params).
Proof.
  assert (P : @value_text AsciiRuntime.runtime (PFloat 0x4004000000000000)
              = Some (py "2.5")) by (vm_compute; reflexivity).
  split; [exact P |].
  destruct (@prompt_embeds_arguments AsciiRuntime.runtime (py "Mumbai")
              (py "Residential") (py "Flat") (PFloat 0x4004000000000000)
              (py "2.5") P)
    as (urls & params & H1 & _ & H3 & H4 & H5 & H6).
  exists urls, params. auto.
Defined.

(** The city is embedded as typed: for "Mumbai" the instruction holds
    "Mumbai" and not "mumbai", and a price of 2.5 appears as "2.5". *)
Example prompt_for_Mumbai :
  let p := @property_prompt AsciiRuntime.runtime (PStr (py "Mumbai"))
             (PStr (py "Flat")) (PStr (py "Residential"))
             (PFloat 0x4004000000000000) in
  str_contains p (py "listings for Mumbai where property type is Flat and category is Residential.") = true
  /\ str_contains p (py "properties under 2.5 Crores.") = true
  /\ str_contains p (py "mumbai") = false.
Proof. vm_compute. auto. Qed.

(** C8. Building the request cannot fail: for every city string, the empty
    one included, and every maximum price that has a text (a float, an int
    within the conversion limit), negative ones included, the lowercasing, the three
    URLs, the instruction and the schema are produced and the price is
    passed on unchecked, as its text; [find_properties] reaches the
    extraction call, and its outcome is that of the call followed by the
    formatting of the answer. *)
Theorem request_building_total {R : Runtime} (self : PropertyFindingAgent)
    (city property_category property_type : str) (max_price : pyval)
    (price : str) :
  value_text max_price = Some price ->
  exists urls params,
    property_request (PStr city) max_price (PStr property_category)
      (PStr property_type) = Ok (urls, params)
    /\ urls = property_urls (lower city)
    /\ List.length urls = 3
    /\ schema params = model_json_schema PropertiesResponse
    /\ substring price (prompt params)
    /\ find_properties self (PStr city) max_price (PStr property_category)
         (PStr property_type)
       = (response <- firecrawl_extract self urls params ;;
          format_response response).
Proof.
  intro P. eexists _, _. split; [reflexivity |].
  split; [reflexivity |]. split; [reflexivity |]. split; [reflexivity |].
  split; [| reflexivity].
  cbn [prompt]. rewrite property_prompt_str, (value_text_format _ P).
  auto 12 with substr.
Qed.

Lemma request_building_total_witness :
  @value_text AsciiRuntime.runtime (PInt (-5)) = Some (py "-5")
  /\ exists urls params,
       @property_request AsciiRuntime.runtime (PStr []) (PInt (-5))
         (PStr (py "Residential")) (PStr (py "Flat")) = Ok (urls, params)
       /\ List.length urls = 3
       /\ substring (py "-5") (prompt params).
Proof.
  assert (P : @value_text AsciiRuntime.runtime (PInt (-5)) = Some (py "-5"))
    by (vm_compute; reflexivity).
  split; [exact P |].
  destruct (@request_building_total AsciiRuntime.runtime
              (answering PNone) [] (py "Residential") (py "Flat")
              (PInt (-5)) (py "-5") P)
    as (urls & params & H1 & _ & H3 & _ & H5 & _).
  exists urls, params. auto.
Defined.

(** The digits the limit counts: those of the absolute value. *)
Example int_digits_samples :
  int_digits 0 = 1 /\ int_digits 999 = 3 /\ int_digits 1000 = 4
  /\ int_digits (-120) = 3 /\ int_within_limit (-120) = true.
Proof. vm_compute. auto. Qed.

(** The empty city and a negative price go through: the URLs are built
    around the empty token and the instruction carries "-5". *)
Example request_for_empty_city :
  exists params,
    @property_request AsciiRuntime.runtime (PStr []) (PInt (-5))
      (PStr (py "Residential")) (PStr (py "Flat"))
    = Ok ([py "https://www.squareyards.com/sale/property-for-sale-in-/*";
           py "https://www.99acres.com/property-in--ffid/*";
           py "https://housing.com/in/buy//"], params)
    /\ str_contains (prompt params) (py "properties under -5 Crores.") = true.
Proof. eexists. split; vm_compute; reflexivity. Qed.

(** ** The result formatter *)

Section FormatterFacts.

Context {R : Runtime}.

Lemma find_properties_extraction (self : PropertyFindingAgent)
    (city max_price category type : pyval) :
  find_properties self city max_price category type =
  (response <- property_extraction self city max_price category type ;;
   format_response response).
Proof.
  unfold find_properties, property_extraction.
  destruct (property_request city max_price category type); reflexivity.
Qed.

Lemma get_location_trends_extraction (self : PropertyFindingAgent)
    (city : pyval) :
  get_location_trends self city =
  (raw_response <- trends_extraction self city ;; Ok PLACEHOLDER).
Proof.
  unfold get_location_trends, trends_extraction.
  destruct (py_lower city); reflexivity.
Qed.

Lemma lookup_some_truthy (key : str) (entries : list (str * pyval)) (v : pyval) :
  lookup key entries = Some v -> truthy (PDict entries) = true.
Proof. destruct entries; [discriminate | reflexivity]. Qed.

Lemma format_response_lacking (response : pyval) :
  lacks_properties response -> format_response response = Ok NO_DATA.
Proof.
  unfold format_response.
  intros [F | (entries & -> & [D | (data & D & P)])].
  - now rewrite F.
  - destruct (truthy (PDict entries)); [| reflexivity].
    cbn [negb py_get]. rewrite D. reflexivity.
  - destruct (truthy (PDict entries)); [| reflexivity].
    cbn [negb py_get]. rewrite D. cbn [bind py_in]. rewrite P. reflexivity.
Qed.

Lemma format_response_properties (response : pyval) (records : list pyval) :
  has_properties response records ->
  format_response response = format_loop [] records.
Proof.
  intros (entries & data & -> & D & P). unfold format_response.
  rewrite (lookup_some_truthy _ _ D).
  cbn [negb py_get py_getitem]. rewrite D.
  cbn [bind py_in py_getitem]. rewrite P. reflexivity.
Qed.

Lemma format_block_well_formed (prop : pyval) :
  well_formed_record prop ->
  exists block, format_block prop = Ok block /\ section_block prop block.
Proof.
  intros (fields & -> & H). unfold RECORD_KEYS in H.
  repeat match goal with
         | H : Forall _ (_ :: _) |- _ => inversion_clear H
         end.
  repeat match goal with
         | H : lookup ?k fields <> None |- _ =>
           destruct (lookup k fields) as [?v |] eqn:?E; [clear H | now elim H]
         end.
  eexists. split.
  - unfold format_block, py_getitem.
    repeat match goal with
           | H : lookup _ fields = Some _ |- _ => rewrite H; clear H
           end.
    reflexivity.
  - unfold section_block.
    eexists _, _, _, _, _, _.
    repeat (split; [first [reflexivity | eassumption] |]).
    repeat split;
      try (intros text Ht; rewrite <- (value_text_format _ Ht));
      unfold HEADER; auto 24 with substr.
Qed.


Lemma format_block_error (prop : pyval) (e : exn) :
  format_block prop = Raise e -> key_access_error e.
Proof.
  unfold format_block, key_access_error, RECORD_KEYS.
  destruct prop; cbn [py_getitem bind];
    try (intro H; injection H as <-; right; eexists; reflexivity).
  repeat match goal with
         | |- context [lookup ?k entries] =>
           destruct (lookup k entries); cbn [bind];
           [| intro H; injection H as <-; left; eexists; split;
              [| reflexivity]; simpl; tauto]
         end.
  discriminate.
Qed.

Lemma format_block_record_error (fields : list (str * pyval)) (e : exn) :
  format_block (PDict fields) = Raise e ->
  exists key, In key RECORD_KEYS /\ e = KeyError key.
Proof.
  intro H. destruct (format_block_error _ H) as [K | (why & ->)]; [exact K |].
  revert H. unfold format_block, py_getitem.
  repeat match goal with
         | |- context [lookup ?k fields] =>
           destruct (lookup k fields); cbn [bind]; [| discriminate]
         end.
  discriminate.
Qed.

Lemma format_block_missing_key (fields : list (str * pyval)) (key : str) :
  In key RECORD_KEYS -> lookup key fields = None ->
  exists e, format_block (PDict fields) = Raise e.
Proof.
  intros Hin Hnone.
  destruct (format_block (PDict fields)) as [block |] eqn:E; [| eauto].
  exfalso. revert E. unfold format_block, py_getitem.
  unfold RECORD_KEYS in Hin. simpl in Hin.
  repeat match goal with
         | |- context [lookup ?k fields] =>
           destruct (lookup k fields) eqn:?E; cbn [bind]; [| discriminate]
         end.
  intros _.
  repeat match goal with
         | H : _ \/ _ |- _ => destruct H as [<- | H]
         end; congruence.
Qed.

Lemma format_loop_raises (records : list pyval) (prop : pyval) (e : exn) :
  In prop records -> format_block prop = Raise e ->
  forall formatted,
  exists e' prop',
    In prop' records /\ format_block prop' = Raise e'
    /\ format_loop formatted records = Raise e'.
Proof.
  induction records as [| first rest IH]; intros Hin Hraise formatted.
  - contradiction.
  - cbn [format_loop].
    destruct (format_block first) as [block | e1] eqn:E1; cbn [bind].
    + destruct Hin as [-> | Hin]; [congruence |].
      destruct (IH Hin Hraise (formatted ++ block)) as (e' & p' & H1 & H2 & H3).
      exists e', p'. repeat split; [now right | assumption | assumption].
    + exists e1, first. repeat split; [now left | assumption].
Qed.

End FormatterFacts.

(** C1. When the extraction response is falsy, or its ["data"] mapping has
    no key ["properties"], [find_properties] returns exactly the no-data
    sentinel, whatever else the response holds, and does not raise. *)
Theorem no_data_sentinel {R : Runtime} (self : PropertyFindingAgent)
    (city max_price property_category property_type response : pyval) :
  property_extraction self city max_price property_category property_type
  = Ok response ->
  lacks_properties response ->
  find_properties self city max_price property_category property_type
  = Ok NO_DATA.
Proof.
  intros E L. rewrite find_properties_extraction, E. cbn [bind].
  now apply format_response_lacking.
Qed.

Lemma no_data_sentinel_witness :
  @property_extraction AsciiRuntime.runtime (answering (envelope (PDict [])))
    (PStr (py "Mumbai")) (PFloat 0x4004000000000000)
    (PStr (py "Residential")) (PStr (py "Flat"))
  = Ok (envelope (PDict []))
  /\ lacks_properties (envelope (PDict []))
  /\ @find_properties AsciiRuntime.runtime (answering (envelope (PDict [])))
       (PStr (py "Mumbai")) (PFloat 0x4004000000000000)
       (PStr (py "Residential")) (PStr (py "Flat"))
     = Ok NO_DATA.
Proof.
  assert (L : lacks_properties (envelope (PDict []))).
  { right. eexists. split; [reflexivity |]. right. exists [].
    split; reflexivity. }
  split; [reflexivity |]. split; [exact L |].
  apply (@no_data_sentinel AsciiRuntime.runtime _ _ _ _ _ (envelope (PDict [])));
    [reflexivity | exact L].
Defined.

(** A falsy response ([None], an empty mapping) and a response without
    ["data"] give the sentinel as well. *)
Example no_data_for_falsy_responses :
  @find_properties AsciiRuntime.runtime (answering PNone)
    (PStr (py "Pune")) (PInt 3) (PStr (py "Commercial")) (PStr (py "Flat"))
  = Ok NO_DATA
  /\ @find_properties AsciiRuntime.runtime (answering (PDict []))
       (PStr (py "Pune")) (PInt 3) (PStr (py "Commercial")) (PStr (py "Flat"))
     = Ok NO_DATA
  /\ @find_properties AsciiRuntime.runtime
       (answering (PDict [(py "success", PBool false)]))
       (PStr (py "Pune")) (PInt 3) (PStr (py "Commercial")) (PStr (py "Flat"))
     = Ok NO_DATA.
Proof. repeat split; vm_compute; reflexivity. Qed.


Lemma skyline_towers_well_formed : well_formed_record skyline_towers.
Proof.
  eexists. split; [reflexivity |].
  repeat constructor; vm_compute; discriminate.
Qed.


Lemma envelope_has_properties (records : list pyval) :
  has_properties (envelope (PDict [(py "properties", PList records)])) records.
Proof. eexists _, _. repeat split; reflexivity. Qed.


(** The two records above, as the page shows them: both blocks, in the order
    of the response, the second one although its price exceeds the maximum
    of 2.5. *)
Example two_records_formatted :
  @find_properties AsciiRuntime.runtime
    (answering (envelope (PDict [(py "properties",
                                  PList [skyline_towers; palm_court])])))
    (PStr (py "Mumbai")) (PFloat 0x4004000000000000)
    (PStr (py "Residential")) (PStr (py "Flat"))
  = Ok (py "
### 🏠 Skyline Towers
- 📍 **Location**: Bandra West
- 🏷️ **Type**: Flat
- 💰 **Price**: 2.1 Cr
- 📝 **Description**: 2BHK sea view

---

### 🏠 Palm Court
- 📍 **Location**: Juhu
- 🏷️ **Type**: Individual House
- 💰 **Price**: 9 Cr
- 📝 **Description**: Villa with garden

---
").
Proof. vm_compute. reflexivity. Qed.

(** A price that the provider gives as a number is shown by its digits. *)
Example numeric_price_is_shown :
  exists block,
    @format_block AsciiRuntime.runtime
      (PDict [(py "Building_name", PStr (py "Palm Court"));
              (py "Property_type", PStr (py "Flat"));
              (py "location_address", PStr (py "Juhu"));
              (py "Price", PInt 3);
              (py "Description", PNone)]) = Ok block
    /\ str_contains block (py "- 💰 **Price**: 3") = true
    /\ str_contains block (py "None") = true.
Proof. eexists. split; [reflexivity |]. split; vm_compute; reflexivity. Qed.

(** The five keys the formatter reads are the keys under which the schema
    sent to the service declares the fields of a property: the alias where
    the field has one, the attribute name for [location_address]. *)
Example record_keys_are_schema_keys :
  map schema_key (fields PropertyData)
  = [py "Building_name"; py "Property_type"; py "location_address";
     py "Price"; py "Description"]
  /\ forall key, In key RECORD_KEYS <-> In key (map schema_key (fields PropertyData)).
Proof.
  split; [reflexivity |].
  intro key. unfold RECORD_KEYS. cbn [map fields PropertyData schema_key alias attribute In].
  tauto.
Qed.

(** C4. When the list under ["properties"] contains a record that lacks one
    of the five keys the formatter reads, [find_properties] raises instead of
    returning a string or the sentinel: the error of the failed field access
    reaches the caller as it is, and when the list holds records only it is
    the [KeyError] of one of the five keys. *)
Theorem missing_key_raises {R : Runtime} (self : PropertyFindingAgent)
    (city max_price property_category property_type response : pyval)
    (records : list pyval) (fields : list (str * pyval)) (key : str) :
  property_extraction self city max_price property_category property_type
  = Ok response ->
  has_properties response records ->
  In (PDict fields) records ->
  In key RECORD_KEYS ->
  lookup key fields = None ->
  exists e,
    find_properties self city max_price property_category property_type
    = Raise e
    /\ key_access_error e
    /\ (Forall (fun prop => exists f, prop = PDict f) records ->
        exists k, In k RECORD_KEYS /\ e = KeyError k).
Proof.
  intros E P Hin Hkey Hnone.
  destruct (@format_block_missing_key R fields key Hkey Hnone) as (e0 & H0).
  destruct (@format_loop_raises R records _ _ Hin H0 []) as (e & prop & Hp & Hb & Hl).
  exists e. split; [| split].
  - rewrite find_properties_extraction, E. cbn [bind].
    now rewrite (format_response_properties P).
  - eapply format_block_error; eassumption.
  - intro Hall. rewrite Forall_forall in Hall.
    destruct (Hall prop Hp) as (f & ->).
    eapply format_block_record_error; eassumption.
Qed.

Lemma missing_key_raises_witness :
  let response :=
    envelope (PDict [(py "properties",
                      PList [skyline_towers; skyline_towers_unaliased])]) in
  @property_extraction AsciiRuntime.runtime (answering response)
    (PStr (py "Mumbai")) (PFloat 0x4004000000000000)
    (PStr (py "Residential")) (PStr (py "Flat"))
  = Ok response
  /\ has_properties response [skyline_towers; skyline_towers_unaliased]
  /\ In skyline_towers_unaliased [skyline_towers; skyline_towers_unaliased]
  /\ In (py "Price") RECORD_KEYS
  /\ exists e,
       @find_properties AsciiRuntime.runtime (answering response)
         (PStr (py "Mumbai")) (PFloat 0x4004000000000000)
         (PStr (py "Residential")) (PStr (py "Flat"))
       = Raise e
       /\ key_access_error e.
Proof.
  intro response.
  assert (P : has_properties response [skyline_towers; skyline_towers_unaliased])
    by apply envelope_has_properties.
  assert (I : In skyline_towers_unaliased
                [skyline_towers; skyline_towers_unaliased])
    by (right; left; reflexivity).
  assert (K : In (py "Price") RECORD_KEYS)
    by (right; right; right; left; reflexivity).
  split; [reflexivity |]. split; [exact P |]. split; [exact I |].
  split; [exact K |].
  destruct (@missing_key_raises AsciiRuntime.runtime (answering response)
              (PStr (py "Mumbai")) (PFloat 0x4004000000000000)
              (PStr (py "Residential")) (PStr (py "Flat")) response
              [skyline_towers; skyline_towers_unaliased] _ (py "Price")
              eq_refl P I K eq_refl) as (e & H1 & H2 & _).
  exists e. auto.
Defined.

(** The record under its unaliased keys makes the call fail at the first key
    read, after the well-formed record before it has been formatted. *)
Example unaliased_record_raises :
  @find_properties AsciiRuntime.runtime
    (answering (envelope (PDict [(py "properties",
                 PList [skyline_towers; skyline_towers_unaliased])])))
    (PStr (py "Mumbai")) (PFloat 0x4004000000000000)
    (PStr (py "Residential")) (PStr (py "Flat"))
  = Raise (KeyError (py "Building_name")).
Proof. vm_compute. reflexivity. Qed.

(** C10. When ["properties"] is present and maps to the empty list,
    [find_properties] returns the empty string, which is not the sentinel:
    the sentinel stands for a missing key or a falsy response only. *)
Theorem empty_list_gives_empty_string {R : Runtime}
    (self : PropertyFindingAgent)
    (city max_price property_category property_type response : pyval) :
  property_extraction self city max_price property_category property_type
  = Ok response ->
  has_properties response [] ->
  find_properties self city max_price property_category property_type = Ok []
  /\ find_properties self city max_price property_category property_type
     <> Ok NO_DATA.
Proof.
  intros E P.
  assert (H : find_properties self city max_price property_category
                property_type = Ok []).
  { rewrite find_properties_extraction, E. cbn [bind].
    now rewrite (format_response_properties P). }
  split; [exact H |]. rewrite H. intro N.
  injection N as N. vm_compute in N. discriminate N.
Qed.

Lemma empty_list_gives_empty_string_witness :
  let response := envelope (PDict [(py "properties", PList [])]) in
  @property_extraction AsciiRuntime.runtime (answering response)
    (PStr (py "Mumbai")) (PFloat 0x4004000000000000)
    (PStr (py "Residential")) (PStr (py "Flat"))
  = Ok response
  /\ has_properties response []
  /\ @find_properties AsciiRuntime.runtime (answering response)
       (PStr (py "Mumbai")) (PFloat 0x4004000000000000)
       (PStr (py "Residential")) (PStr (py "Flat"))
     = Ok [].
Proof.
  intro response.
  assert (P : has_properties response []) by apply envelope_has_properties.
  split; [reflexivity |]. split; [exact P |].
  exact (proj1 (@empty_list_gives_empty_string AsciiRuntime.runtime
                  (answering response) (PStr (py "Mumbai"))
                  (PFloat 0x4004000000000000) (PStr (py "Residential"))
                  (PStr (py "Flat")) response eq_refl P)).
Defined.

(** ** The trend summariser *)

(** C3. Whatever the city and whatever the extraction call returns (when it
    returns), [get_location_trends] returns the fixed placeholder: nothing of
    the response enters the result. *)
Theorem trends_placeholder {R : Runtime} (self : PropertyFindingAgent)
    (city raw_response : pyval) :
  trends_extraction self city = Ok raw_response ->
  get_location_trends self city = Ok PLACEHOLDER.
Proof.
  intro E. now rewrite get_location_trends_extraction, E.
Qed.

Lemma trends_placeholder_witness :
  let raw_response :=
    envelope (PDict [(py "locations",
      PList [PDict [(py "location", PStr (py "Bandra West"));
                    (py "price_per_sqft", PInt 52000);
                    (py "percent_increase", PFloat 0x4004000000000000);
                    (py "rental_yield", PInt 3)]])]) in
  @trends_extraction AsciiRuntime.runtime (answering raw_response)
    (PStr (py "Mumbai")) = Ok raw_response
  /\ @get_location_trends AsciiRuntime.runtime (answering raw_response)
       (PStr (py "Mumbai"))
     = Ok PLACEHOLDER.
Proof.
  intro raw_response.
  assert (E : @trends_extraction AsciiRuntime.runtime (answering raw_response)
                (PStr (py "Mumbai")) = Ok raw_response) by reflexivity.
  split; [exact E |].
  exact (@trends_placeholder AsciiRuntime.runtime (answering raw_response)
           (PStr (py "Mumbai")) raw_response E).
Defined.

(** * Further properties of the agent *)

(** ** The formatting loop *)

Section LoopFacts.

Context {R : Runtime}.

Lemma format_loop_acc (props : list pyval) (formatted : str) :
  format_loop formatted props
  = (text <- format_loop [] props ;; Ok (formatted ++ text)).
Proof.
  revert formatted. induction props as [| prop rest IH]; intro formatted.
  - cbn [format_loop bind]. now rewrite app_nil_r.
  - cbn [format_loop]. destruct (format_block prop) as [block | e]; cbn [bind].
    + rewrite (IH (formatted ++ block)), (IH ([] ++ block)).
      destruct (format_loop [] rest) as [text | e]; cbn [bind].
      * now rewrite <- app_assoc.
      * reflexivity.
    + reflexivity.
Qed.

Lemma format_loop_app (first second : list pyval) (formatted : str) :
  format_loop formatted (first ++ second)
  = (text <- format_loop formatted first ;; format_loop text second).
Proof.
  revert formatted. induction first as [| prop rest IH]; intro formatted.
  - reflexivity.
  - cbn [app format_loop].
    destruct (format_block prop) as [block | e]; cbn [bind]; [apply IH | reflexivity].
Qed.

Lemma format_loop_first_failure (good rest : list pyval) (bad : pyval) (e : exn) :
  Forall (fun prop => exists block, format_block prop = Ok block) good ->
  format_block bad = Raise e ->
  forall formatted, format_loop formatted (good ++ bad :: rest) = Raise e.
Proof.
  intros Hgood Hbad. induction Hgood as [| prop good (block & Hb) _ IH];
    intro formatted; cbn [app format_loop].
  - now rewrite Hbad.
  - rewrite Hb. cbn [bind]. apply IH.
Qed.

Lemma format_block_header (prop : pyval) (block : str) :
  format_block prop = Ok block -> exists text, block = HEADER ++ text.
Proof.
  unfold format_block. destruct prop; cbn [py_getitem bind]; try discriminate.
  repeat match goal with
         | |- context [lookup ?k entries] =>
           destruct (lookup k entries); cbn [bind]; [| discriminate]
         end.
  intro H. injection H as <-. eexists. reflexivity.
Qed.

Lemma format_loop_nonempty (prop : pyval) (rest : list pyval) (text : str) :
  format_loop [] (prop :: rest) = Ok text -> exists tail, text = HEADER ++ tail.
Proof.
  cbn [format_loop].
  destruct (format_block prop) as [block | e] eqn:Hb; cbn [bind]; [| discriminate].
  rewrite format_loop_acc.
  destruct (format_loop [] rest) as [more | e]; cbn [bind]; [| discriminate].
  intro H. injection H as <-.
  destruct (format_block_header _ Hb) as (t & ->).
  exists (t ++ more). cbn [app]. now rewrite <- app_assoc.
Qed.

Lemma format_block_first_missing (fields : list (str * pyval)) (key : str) :
  first_missing fields = Some key ->
  format_block (PDict fields) = Raise (KeyError key).
Proof.
  unfold first_missing, RECORD_KEYS, format_block, py_getitem. cbn [find].
  repeat match goal with
         | |- context [lookup ?k fields] =>
           destruct (lookup k fields); cbn [bind];
           [| intro H; injection H as <-; reflexivity]
         end.
  discriminate.
Qed.

Lemma format_block_non_record (prop : pyval) :
  (forall fields, prop <> PDict fields) ->
  format_block prop = Raise (TypeError (subscript_error prop)).
Proof.
  intro H. destruct prop; try reflexivity. now elim (H entries).
Qed.

Lemma format_block_same_fields (p q : pyval) :
  same_fields p q -> format_block p = format_block q.
Proof.
  intros (f & g & -> & -> & H). unfold format_block, py_getitem.
  rewrite !H by (unfold RECORD_KEYS; simpl; tauto). reflexivity.
Qed.

Lemma format_loop_same_fields (ps qs : list pyval) :
  Forall2 same_fields ps qs ->
  forall formatted, format_loop formatted ps = format_loop formatted qs.
Proof.
  induction 1 as [| p q ps qs Hpq _ IH]; intro formatted; cbn [format_loop].
  - reflexivity.
  - rewrite (format_block_same_fields Hpq).
    destruct (format_block q); cbn [bind]; [apply IH | reflexivity].
Qed.

Lemma well_formed_block_ok (prop : pyval) :
  well_formed_record prop -> exists block, format_block prop = Ok block.
Proof.
  intro H. destruct (format_block_well_formed H) as (block & Hb & _). eauto.
Qed.


End LoopFacts.

(** ** Outcomes of the property search *)

Section SearchOutcomes.

Context {R : Runtime}.

Lemma format_response_payload (response properties : pyval) :
  payload_properties response properties ->
  format_response response
  = (props <- py_iter properties ;; format_loop [] props).
Proof.
  intros (entries & data & -> & D & P). unfold format_response.
  rewrite (lookup_some_truthy _ _ D).
  cbn [negb py_get py_getitem]. rewrite D.
  cbn [bind py_in py_getitem]. rewrite P. reflexivity.
Qed.

Lemma format_response_non_mapping (response : pyval) :
  truthy response = true -> is_mapping response = false ->
  format_response response = Raise (AttributeError (py "get")).
Proof.
  intros T M. unfold format_response. rewrite T.
  destruct response; try discriminate M; reflexivity.
Qed.

Lemma format_response_data (entries : list (str * pyval)) (data : pyval) :
  lookup (py "data") entries = Some data ->
  format_response (PDict entries)
  = (found <- py_in (py "properties") data ;;
     if negb found then Ok NO_DATA else
     properties <- py_getitem data (py "properties") ;;
     props <- py_iter properties ;;
     format_loop [] props).
Proof.
  intro D. unfold format_response. rewrite (lookup_some_truthy _ _ D).
  cbn [negb py_get py_getitem]. rewrite D. cbn [bind].
  destruct (py_in (py "properties") data) as [found |]; cbn [bind];
    [| reflexivity].
  destruct found; reflexivity.
Qed.

End SearchOutcomes.

(** X1. Nothing around the extraction call catches: when the call made by
    [find_properties] raises, [find_properties] raises the same exception,
    and likewise for [get_location_trends]. *)
Theorem provider_failure_reaches_caller {R : Runtime}
    (self : PropertyFindingAgent)
    (city max_price property_category property_type : pyval) (e : exn) :
  (property_extraction self city max_price property_category property_type
   = Raise e ->
   find_properties self city max_price property_category property_type
   = Raise e)
  /\ (trends_extraction self city = Raise e ->
      get_location_trends self city = Raise e).
Proof.
  split; intro E.
  - now rewrite find_properties_extraction, E.
  - now rewrite get_location_trends_extraction, E.
Qed.

Lemma provider_failure_reaches_caller_witness :
  let e := ProviderError (py "402 Payment Required") in
  @property_extraction AsciiRuntime.runtime (failing e) (PStr (py "Mumbai"))
    (PInt 2) (PStr (py "Residential")) (PStr (py "Flat")) = Raise e
  /\ @trends_extraction AsciiRuntime.runtime (failing e) (PStr (py "Mumbai"))
     = Raise e
  /\ @find_properties AsciiRuntime.runtime (failing e) (PStr (py "Mumbai"))
       (PInt 2) (PStr (py "Residential")) (PStr (py "Flat")) = Raise e
  /\ @get_location_trends AsciiRuntime.runtime (failing e)
       (PStr (py "Mumbai")) = Raise e.
Proof.
  intro e.
  assert (E1 : @property_extraction AsciiRuntime.runtime (failing e)
                 (PStr (py "Mumbai")) (PInt 2) (PStr (py "Residential"))
                 (PStr (py "Flat")) = Raise e) by reflexivity.
  assert (E2 : @trends_extraction AsciiRuntime.runtime (failing e)
                 (PStr (py "Mumbai")) = Raise e) by reflexivity.
  destruct (@provider_failure_reaches_caller AsciiRuntime.runtime (failing e)
              (PStr (py "Mumbai")) (PInt 2) (PStr (py "Residential"))
              (PStr (py "Flat")) e) as [H1 H2].
  split; [exact E1 |]. split; [exact E2 |].
  split; [exact (H1 E1) | exact (H2 E2)].
Defined.

(** X2. A city that is not a string makes both operations raise the
    [AttributeError] of [city.lower()], whatever the provider: the request
    is never built. *)
Theorem non_string_city_raises {R : Runtime} (self : PropertyFindingAgent)
    (city max_price property_category property_type : pyval) :
  is_string city = false ->
  find_properties self city max_price property_category property_type
  = Raise (AttributeError (py "lower"))
  /\ get_location_trends self city = Raise (AttributeError (py "lower")).
Proof.
  intro H. destruct city; try discriminate H; split; reflexivity.
Qed.

Lemma non_string_city_raises_witness :
  is_string PNone = false
  /\ @find_properties AsciiRuntime.runtime (answering (envelope (PDict [])))
       PNone (PInt 2) (PStr (py "Residential")) (PStr (py "Flat"))
     = Raise (AttributeError (py "lower"))
  /\ @get_location_trends AsciiRuntime.runtime
       (answering (envelope (PDict []))) PNone
     = Raise (AttributeError (py "lower")).
Proof.
  split; [reflexivity |].
  exact (@non_string_city_raises AsciiRuntime.runtime
           (answering (envelope (PDict []))) PNone (PInt 2)
           (PStr (py "Residential")) (PStr (py "Flat")) eq_refl).
Defined.

(** X3. The outcome of [find_properties] depends on the provider through its
    answer to one request only, the one built from the arguments: two
    providers that agree on it give the same outcome, whatever they answer
    elsewhere. *)
Theorem one_answer_decides {R : Runtime} (self1 self2 : PropertyFindingAgent)
    (city max_price property_category property_type : pyval)
    (urls : list str) (params : extract_params) :
  property_request city max_price property_category property_type
  = Ok (urls, params) ->
  firecrawl_extract self1 urls params = firecrawl_extract self2 urls params ->
  find_properties self1 city max_price property_category property_type
  = find_properties self2 city max_price property_category property_type.
Proof.
  intros Q E. unfold find_properties. rewrite Q. cbn [bind fst snd].
  now rewrite E.
Qed.

Lemma one_answer_decides_witness :
  let properties := Ok (envelope (PDict [(py "properties", PList [palm_court])])) in
  let self1 := answering_both properties (Ok PNone) in
  let self2 := answering_both properties (Raise (ProviderError (py "timeout"))) in
  let urls := property_urls (@lower AsciiRuntime.runtime (py "Mumbai")) in
  let params :=
    {| prompt := @property_prompt AsciiRuntime.runtime (PStr (py "Mumbai"))
                   (PStr (py "Flat")) (PStr (py "Residential")) (PInt 2);
       schema := model_json_schema PropertiesResponse |} in
  @property_request AsciiRuntime.runtime (PStr (py "Mumbai")) (PInt 2)
    (PStr (py "Residential")) (PStr (py "Flat")) = Ok (urls, params)
  /\ firecrawl_extract self1 urls params = firecrawl_extract self2 urls params
  /\ @find_properties AsciiRuntime.runtime self1 (PStr (py "Mumbai")) (PInt 2)
       (PStr (py "Residential")) (PStr (py "Flat"))
     = @find_properties AsciiRuntime.runtime self2 (PStr (py "Mumbai"))
         (PInt 2) (PStr (py "Residential")) (PStr (py "Flat")).
Proof.
  intros properties self1 self2 urls params.
  assert (Q : @property_request AsciiRuntime.runtime (PStr (py "Mumbai"))
                (PInt 2) (PStr (py "Residential")) (PStr (py "Flat"))
              = Ok (urls, params)) by reflexivity.
  assert (E : firecrawl_extract self1 urls params
              = firecrawl_extract self2 urls params) by reflexivity.
  split; [exact Q |]. split; [exact E |].
  exact (@one_answer_decides AsciiRuntime.runtime self1 self2 _ _ _ _ _ _ Q E).
Defined.

(** X4. A response that is truthy and not a mapping (a bare list of
    records, a string, a number) is not taken for "no data":
    [find_properties] raises the [AttributeError] of [response.get]. *)
Theorem non_mapping_response_raises {R : Runtime} (self : PropertyFindingAgent)
    (city max_price property_category property_type response : pyval) :
  property_extraction self city max_price property_category property_type
  = Ok response ->
  truthy response = true ->
  is_mapping response = false ->
  find_properties self city max_price property_category property_type
  = Raise (AttributeError (py "get")).
Proof.
  intros E T M. rewrite find_properties_extraction, E. cbn [bind].
  now apply format_response_non_mapping.
Qed.

Lemma non_mapping_response_raises_witness :
  let response := PList [skyline_towers] in
  @property_extraction AsciiRuntime.runtime (answering response)
    (PStr (py "Mumbai")) (PInt 2) (PStr (py "Residential")) (PStr (py "Flat"))
  = Ok response
  /\ truthy response = true
  /\ is_mapping response = false
  /\ @find_properties AsciiRuntime.runtime (answering response)
       (PStr (py "Mumbai")) (PInt 2) (PStr (py "Residential"))
       (PStr (py "Flat"))
     = Raise (AttributeError (py "get")).
Proof.
  intro response.
  assert (E : @property_extraction AsciiRuntime.runtime (answering response)
                (PStr (py "Mumbai")) (PInt 2) (PStr (py "Residential"))
                (PStr (py "Flat")) = Ok response) by reflexivity.
  split; [exact E |]. split; [reflexivity |]. split; [reflexivity |].
  exact (@non_mapping_response_raises AsciiRuntime.runtime (answering response)
           _ _ _ _ response E eq_refl eq_refl).
Defined.

(** X5. A response whose ["data"] is [None], a boolean or a number makes
    [find_properties] raise the [TypeError] of the membership test instead
    of returning the sentinel. *)
Theorem scalar_data_raises {R : Runtime} (self : PropertyFindingAgent)
    (city max_price property_category property_type : pyval)
    (entries : list (str * pyval)) (data : pyval) :
  property_extraction self city max_price property_category property_type
  = Ok (PDict entries) ->
  lookup (py "data") entries = Some data ->
  is_scalar data = true ->
  find_properties self city max_price property_category property_type
  = Raise (TypeError NotIterable).
Proof.
  intros E D S. rewrite find_properties_extraction, E. cbn [bind].
  rewrite (format_response_data _ D).
  destruct data; try discriminate S; reflexivity.
Qed.

Lemma scalar_data_raises_witness :
  let entries := [(py "success", PBool false); (py "data", PNone)] in
  @property_extraction AsciiRuntime.runtime (answering (PDict entries))
    (PStr (py "Mumbai")) (PInt 2) (PStr (py "Residential")) (PStr (py "Flat"))
  = Ok (PDict entries)
  /\ lookup (py "data") entries = Some PNone
  /\ is_scalar PNone = true
  /\ @find_properties AsciiRuntime.runtime (answering (PDict entries))
       (PStr (py "Mumbai")) (PInt 2) (PStr (py "Residential"))
       (PStr (py "Flat"))
     = Raise (TypeError NotIterable).
Proof.
  intro entries.
  assert (E : @property_extraction AsciiRuntime.runtime
                (answering (PDict entries)) (PStr (py "Mumbai")) (PInt 2)
                (PStr (py "Residential")) (PStr (py "Flat"))
              = Ok (PDict entries)) by reflexivity.
  assert (D : lookup (py "data") entries = Some PNone) by reflexivity.
  split; [exact E |]. split; [exact D |]. split; [reflexivity |].
  exact (@scalar_data_raises AsciiRuntime.runtime (answering (PDict entries))
           _ _ _ _ entries PNone E D eq_refl).
Defined.

(** X6. When ["data"] is a string or a list, ["properties" in data] is a
    substring or an element test: if it fails the sentinel is returned, and
    if it succeeds [data["properties"]] raises a [TypeError], the index not
    being an integer. *)
Theorem text_or_list_data {R : Runtime} (self : PropertyFindingAgent)
    (city max_price property_category property_type : pyval)
    (entries : list (str * pyval)) (data : pyval) (found : bool) :
  property_extraction self city max_price property_category property_type
  = Ok (PDict entries) ->
  lookup (py "data") entries = Some data ->
  mentions_properties data = Some found ->
  find_properties self city max_price property_category property_type
  = if found then Raise (TypeError IndexNotInteger) else Ok NO_DATA.
Proof.
  intros E D M. rewrite find_properties_extraction, E. cbn [bind].
  rewrite (format_response_data _ D).
  destruct data; try discriminate M; injection M as <-; cbn [py_in bind].
  - destruct (str_contains s (py "properties")); reflexivity.
  - destruct (existsb (is_str (py "properties")) items); reflexivity.
Qed.

Lemma text_or_list_data_witness :
  let data := PStr (py "no properties found") in
  let entries := [(py "success", PBool true); (py "data", data)] in
  @property_extraction AsciiRuntime.runtime (answering (PDict entries))
    (PStr (py "Mumbai")) (PInt 2) (PStr (py "Residential")) (PStr (py "Flat"))
  = Ok (PDict entries)
  /\ lookup (py "data") entries = Some data
  /\ mentions_properties data = Some true
  /\ @find_properties AsciiRuntime.runtime (answering (PDict entries))
       (PStr (py "Mumbai")) (PInt 2) (PStr (py "Residential"))
       (PStr (py "Flat"))
     = Raise (TypeError IndexNotInteger).
Proof.
  intros data entries.
  assert (E : @property_extraction AsciiRuntime.runtime
                (answering (PDict entries)) (PStr (py "Mumbai")) (PInt 2)
                (PStr (py "Residential")) (PStr (py "Flat"))
              = Ok (PDict entries)) by reflexivity.
  assert (D : lookup (py "data") entries = Some data) by reflexivity.
  assert (M : mentions_properties data = Some true) by (vm_compute; reflexivity).
  split; [exact E |]. split; [exact D |]. split; [exact M |].
  exact (@text_or_list_data AsciiRuntime.runtime (answering (PDict entries))
           _ _ _ _ entries data true E D M).
Defined.

(** X7. When ["properties"] is present and is not a list, the loop runs over
    whatever iterating it yields: an empty string or mapping gives the empty
    result, a non-empty one raises a [TypeError] at its first character or
    key, and [None], a boolean or a number raises the [TypeError] of the
    iteration. *)
Theorem properties_not_a_list {R : Runtime} (self : PropertyFindingAgent)
    (city max_price property_category property_type response properties : pyval) :
  property_extraction self city max_price property_category property_type
  = Ok response ->
  payload_properties response properties ->
  is_list properties = false ->
  find_properties self city max_price property_category property_type
  = loop_over_non_list properties.
Proof.
  intros E P L. rewrite find_properties_extraction, E. cbn [bind].
  rewrite (format_response_payload P).
  destruct properties as [| | | | s | | fields]; try discriminate L;
    try reflexivity.
  - destruct s; reflexivity.
  - destruct fields as [| [k v] rest]; reflexivity.
Qed.

Lemma properties_not_a_list_witness :
  let response := envelope (PDict [(py "properties", PNone)]) in
  @property_extraction AsciiRuntime.runtime (answering response)
    (PStr (py "Mumbai")) (PInt 2) (PStr (py "Residential")) (PStr (py "Flat"))
  = Ok response
  /\ payload_properties response PNone
  /\ is_list PNone = false
  /\ @find_properties AsciiRuntime.runtime (answering response)
       (PStr (py "Mumbai")) (PInt 2) (PStr (py "Residential"))
       (PStr (py "Flat"))
     = Raise (TypeError NotIterable).
Proof.
  intro response.
  assert (E : @property_extraction AsciiRuntime.runtime (answering response)
                (PStr (py "Mumbai")) (PInt 2) (PStr (py "Residential"))
                (PStr (py "Flat")) = Ok response) by reflexivity.
  assert (P : payload_properties response PNone).
  { eexists _, _. repeat split; reflexivity. }
  split; [exact E |]. split; [exact P |]. split; [reflexivity |].
  exact (@properties_not_a_list AsciiRuntime.runtime (answering response)
           _ _ _ _ response PNone E P eq_refl).
Defined.

(** X8. The first record that cannot be formatted decides the exception:
    when the records before it are well formed and it is a mapping, the
    [KeyError] names the first key it lacks in the order the formatter reads
    (building name, address, type, price, description), whatever follows it
    in the list. *)
Theorem first_missing_key_is_reported {R : Runtime}
    (self : PropertyFindingAgent)
    (city max_price property_category property_type response : pyval)
    (good rest : list pyval) (fields : list (str * pyval)) (key : str) :
  property_extraction self city max_price property_category property_type
  = Ok response ->
  has_properties response (good ++ PDict fields :: rest) ->
  Forall well_formed_record good ->
  first_missing fields = Some key ->
  find_properties self city max_price property_category property_type
  = Raise (KeyError key).
Proof.
  intros E P W M. rewrite find_properties_extraction, E. cbn [bind].
  rewrite (format_response_properties P).
  apply format_loop_first_failure.
  - eapply Forall_impl; [| exact W]. intros p. apply well_formed_block_ok.
  - now apply format_block_first_missing.
Qed.

(** X9. An element of the list that is not a mapping, coming after well
    formed records, makes [find_properties] raise the [TypeError] of
    subscripting it. *)
Theorem non_record_element_raises {R : Runtime} (self : PropertyFindingAgent)
    (city max_price property_category property_type response : pyval)
    (good rest : list pyval) (bad : pyval) :
  property_extraction self city max_price property_category property_type
  = Ok response ->
  has_properties response (good ++ bad :: rest) ->
  Forall well_formed_record good ->
  is_mapping bad = false ->
  find_properties self city max_price property_category property_type
  = Raise (TypeError (subscript_error bad)).
Proof.
  intros E P W M. rewrite find_properties_extraction, E. cbn [bind].
  rewrite (format_response_properties P).
  apply format_loop_first_failure.
  - eapply Forall_impl; [| exact W]. intros p. apply well_formed_block_ok.
  - apply format_block_non_record. intros f ->. discriminate M.
Qed.

Lemma first_missing_key_is_reported_witness :
  let records :=
    [skyline_towers] ++ skyline_towers_unpriced :: [skyline_towers_unaliased] in
  let response := envelope (PDict [(py "properties", PList records)]) in
  @property_extraction AsciiRuntime.runtime (answering response)
    (PStr (py "Mumbai")) (PInt 2) (PStr (py "Residential")) (PStr (py "Flat"))
  = Ok response
  /\ has_properties response records
  /\ Forall well_formed_record [skyline_towers]
  /\ @find_properties AsciiRuntime.runtime (answering response)
       (PStr (py "Mumbai")) (PInt 2) (PStr (py "Residential"))
       (PStr (py "Flat"))
     = Raise (KeyError (py "Price")).
Proof.
  intros records response.
  assert (E : @property_extraction AsciiRuntime.runtime (answering response)
                (PStr (py "Mumbai")) (PInt 2) (PStr (py "Residential"))
                (PStr (py "Flat")) = Ok response) by reflexivity.
  assert (P : has_properties response records)
    by apply envelope_has_properties.
  assert (W : Forall well_formed_record [skyline_towers])
    by (repeat constructor; exact skyline_towers_well_formed).
  assert (M : first_missing
                [(py "Building_name", PStr (py "Skyline Towers"));
                 (py "Property_type", PStr (py "Flat"));
                 (py "location_address", PStr (py "Bandra West"));
                 (py "Description", PStr (py "2BHK sea view"))]
              = Some (py "Price")) by (vm_compute; reflexivity).
  split; [exact E |]. split; [exact P |]. split; [exact W |].
  exact (@first_missing_key_is_reported AsciiRuntime.runtime
           (answering response) _ _ _ _ response [skyline_towers]
           [skyline_towers_unaliased] _ (py "Price") E P W M).
Defined.

Lemma non_record_element_raises_witness :
  let records := [skyline_towers] ++ PStr (py "Palm Court, Juhu") :: [] in
  let response := envelope (PDict [(py "properties", PList records)]) in
  @property_extraction AsciiRuntime.runtime (answering response)
    (PStr (py "Mumbai")) (PInt 2) (PStr (py "Residential")) (PStr (py "Flat"))
  = Ok response
  /\ has_properties response records
  /\ Forall well_formed_record [skyline_towers]
  /\ is_mapping (PStr (py "Palm Court, Juhu")) = false
  /\ @find_properties AsciiRuntime.runtime (answering response)
       (PStr (py "Mumbai")) (PInt 2) (PStr (py "Residential"))
       (PStr (py "Flat"))
     = Raise (TypeError IndexNotInteger).
Proof.
  intros records response.
  assert (E : @property_extraction AsciiRuntime.runtime (answering response)
                (PStr (py "Mumbai")) (PInt 2) (PStr (py "Residential"))
                (PStr (py "Flat")) = Ok response) by reflexivity.
  assert (P : has_properties response records)
    by apply envelope_has_properties.
  assert (W : Forall well_formed_record [skyline_towers])
    by (repeat constructor; exact skyline_towers_well_formed).
  split; [exact E |]. split; [exact P |]. split; [exact W |].
  split; [reflexivity |].
  exact (@non_record_element_raises AsciiRuntime.runtime
           (answering response) _ _ _ _ response [skyline_towers] []
           (PStr (py "Palm Court, Juhu")) E P W eq_refl).
Defined.

(** X10. Only the five keys of a record are read: two lists of records that
    agree, record by record, on the values under those keys give the same
    outcome, whatever other keys the records carry and in whatever order
    their keys come. *)
Theorem other_keys_are_ignored {R : Runtime} (self1 self2 : PropertyFindingAgent)
    (city1 max_price1 category1 type1 response1 : pyval)
    (city2 max_price2 category2 type2 response2 : pyval)
    (records1 records2 : list pyval) :
  property_extraction self1 city1 max_price1 category1 type1 = Ok response1 ->
  property_extraction self2 city2 max_price2 category2 type2 = Ok response2 ->
  has_properties response1 records1 ->
  has_properties response2 records2 ->
  Forall2 same_fields records1 records2 ->
  find_properties self1 city1 max_price1 category1 type1
  = find_properties self2 city2 max_price2 category2 type2.
Proof.
  intros E1 E2 P1 P2 S.
  rewrite !find_properties_extraction, E1, E2. cbn [bind].
  rewrite (format_response_properties P1), (format_response_properties P2).
  now apply format_loop_same_fields.
Qed.

Lemma skyline_towers_same_fields :
  same_fields skyline_towers skyline_towers_annotated.
Proof.
  eexists _, _. split; [reflexivity |]. split; [reflexivity |].
  intros key Hin. unfold RECORD_KEYS in Hin. simpl in Hin.
  repeat match goal with
         | H : _ \/ _ |- _ => destruct H as [<- | H]
         end; try (vm_compute; reflexivity). contradiction.
Qed.

Lemma other_keys_are_ignored_witness :
  let response1 := envelope (PDict [(py "properties", PList [skyline_towers])]) in
  let response2 :=
    envelope (PDict [(py "properties", PList [skyline_towers_annotated])]) in
  @property_extraction AsciiRuntime.runtime (answering response1)
    (PStr (py "Mumbai")) (PInt 2) (PStr (py "Residential")) (PStr (py "Flat"))
  = Ok response1
  /\ @property_extraction AsciiRuntime.runtime (answering response2)
       (PStr (py "Mumbai")) (PInt 2) (PStr (py "Residential"))
       (PStr (py "Flat"))
     = Ok response2
  /\ has_properties response1 [skyline_towers]
  /\ has_properties response2 [skyline_towers_annotated]
  /\ Forall2 same_fields [skyline_towers] [skyline_towers_annotated]
  /\ @find_properties AsciiRuntime.runtime (answering response1)
       (PStr (py "Mumbai")) (PInt 2) (PStr (py "Residential"))
       (PStr (py "Flat"))
     = @find_properties AsciiRuntime.runtime (answering response2)
         (PStr (py "Mumbai")) (PInt 2) (PStr (py "Residential"))
         (PStr (py "Flat")).
Proof.
  intros response1 response2.
  assert (E1 : @property_extraction AsciiRuntime.runtime (answering response1)
                 (PStr (py "Mumbai")) (PInt 2) (PStr (py "Residential"))
                 (PStr (py "Flat")) = Ok response1) by reflexivity.
  assert (E2 : @property_extraction AsciiRuntime.runtime (answering response2)
                 (PStr (py "Mumbai")) (PInt 2) (PStr (py "Residential"))
                 (PStr (py "Flat")) = Ok response2) by reflexivity.
  assert (P1 : has_properties response1 [skyline_towers])
    by apply envelope_has_properties.
  assert (P2 : has_properties response2 [skyline_towers_annotated])
    by apply envelope_has_properties.
  assert (S : Forall2 same_fields [skyline_towers] [skyline_towers_annotated])
    by (repeat constructor; exact skyline_towers_same_fields).
  split; [exact E1 |]. split; [exact E2 |]. split; [exact P1 |].
  split; [exact P2 |]. split; [exact S |].
  exact (@other_keys_are_ignored AsciiRuntime.runtime _ _ _ _ _ _ _ _ _ _ _ _
           _ _ E1 E2 P1 P2 S).
Defined.

(** X11. Nothing of the response but the list under ["data"]["properties"]
    is read: two responses carrying the same list give the same outcome,
    also when one of them reports [success: false] or holds other keys. *)
Theorem envelope_is_ignored {R : Runtime} (self1 self2 : PropertyFindingAgent)
    (city1 max_price1 category1 type1 response1 : pyval)
    (city2 max_price2 category2 type2 response2 : pyval)
    (records : list pyval) :
  property_extraction self1 city1 max_price1 category1 type1 = Ok response1 ->
  property_extraction self2 city2 max_price2 category2 type2 = Ok response2 ->
  has_properties response1 records ->
  has_properties response2 records ->
  find_properties self1 city1 max_price1 category1 type1
  = find_properties self2 city2 max_price2 category2 type2.
Proof.
  intros E1 E2 P1 P2.
  rewrite !find_properties_extraction, E1, E2. cbn [bind].
  now rewrite (format_response_properties P1), (format_response_properties P2).
Qed.

Lemma failed_envelope_has_properties (records : list pyval) :
  has_properties (failed_envelope records) records.
Proof. eexists _, _. repeat split; reflexivity. Qed.

Lemma envelope_is_ignored_witness :
  let response1 := envelope (PDict [(py "properties", PList [palm_court])]) in
  let response2 := failed_envelope [palm_court] in
  @property_extraction AsciiRuntime.runtime (answering response1)
    (PStr (py "Mumbai")) (PInt 2) (PStr (py "Residential")) (PStr (py "Flat"))
  = Ok response1
  /\ @property_extraction AsciiRuntime.runtime (answering response2)
       (PStr (py "Pune")) (PInt 5) (PStr (py "Commercial"))
       (PStr (py "Flat"))
     = Ok response2
  /\ has_properties response1 [palm_court]
  /\ has_properties response2 [palm_court]
  /\ @find_properties AsciiRuntime.runtime (answering response1)
       (PStr (py "Mumbai")) (PInt 2) (PStr (py "Residential"))
       (PStr (py "Flat"))
     = @find_properties AsciiRuntime.runtime (answering response2)
         (PStr (py "Pune")) (PInt 5) (PStr (py "Commercial"))
         (PStr (py "Flat")).
Proof.
  intros response1 response2.
  assert (E1 : @property_extraction AsciiRuntime.runtime (answering response1)
                 (PStr (py "Mumbai")) (PInt 2) (PStr (py "Residential"))
                 (PStr (py "Flat")) = Ok response1) by reflexivity.
  assert (E2 : @property_extraction AsciiRuntime.runtime (answering response2)
                 (PStr (py "Pune")) (PInt 5) (PStr (py "Commercial"))
                 (PStr (py "Flat")) = Ok response2) by reflexivity.
  assert (P1 : has_properties response1 [palm_court])
    by apply envelope_has_properties.
  assert (P2 : has_properties response2 [palm_court])
    by apply failed_envelope_has_properties.
  split; [exact E1 |]. split; [exact E2 |]. split; [exact P1 |].
  split; [exact P2 |].
  exact (@envelope_is_ignored AsciiRuntime.runtime _ _ _ _ _ _ _ _ _ _ _ _
           _ E1 E2 P1 P2).
Defined.

(** X12. Formatting goes record by record and carries nothing from one
    record to the next: the outcome for a list [first ++ second] is the
    outcome for [first] followed by that for [second], the texts being
    concatenated and the first exception winning. *)
Theorem formatting_composes {R : Runtime}
    (self1 self2 self12 : PropertyFindingAgent)
    (city max_price property_category property_type : pyval)
    (response1 response2 response12 : pyval) (first second : list pyval) :
  property_extraction self1 city max_price property_category property_type
  = Ok response1 ->
  property_extraction self2 city max_price property_category property_type
  = Ok response2 ->
  property_extraction self12 city max_price property_category property_type
  = Ok response12 ->
  has_properties response1 first ->
  has_properties response2 second ->
  has_properties response12 (first ++ second) ->
  find_properties self12 city max_price property_category property_type
  = (text1 <- find_properties self1 city max_price property_category
                property_type ;;
     text2 <- find_properties self2 city max_price property_category
                property_type ;;
     Ok (text1 ++ text2)).
Proof.
  intros E1 E2 E12 P1 P2 P12.
  rewrite !find_properties_extraction, E1, E2, E12. cbn [bind].
  rewrite (format_response_properties P1), (format_response_properties P2),
    (format_response_properties P12), format_loop_app.
  destruct (format_loop [] first) as [text1 | e]; cbn [bind]; [| reflexivity].
  apply format_loop_acc.
Qed.

Lemma formatting_composes_witness :
  let response1 := envelope (PDict [(py "properties", PList [skyline_towers])]) in
  let response2 := envelope (PDict [(py "properties", PList [palm_court])]) in
  let response12 :=
    envelope (PDict [(py "properties",
                      PList ([skyline_towers] ++ [palm_court]))]) in
  let find response :=
    @find_properties AsciiRuntime.runtime (answering response)
      (PStr (py "Mumbai")) (PInt 2) (PStr (py "Residential"))
      (PStr (py "Flat")) in
  has_properties response1 [skyline_towers]
  /\ has_properties response2 [palm_court]
  /\ has_properties response12 ([skyline_towers] ++ [palm_court])
  /\ find response12
     = (text1 <- find response1 ;; text2 <- find response2 ;;
        Ok (text1 ++ text2)).
Proof.
  intros response1 response2 response12 find.
  assert (P1 : has_properties response1 [skyline_towers])
    by apply envelope_has_properties.
  assert (P2 : has_properties response2 [palm_court])
    by apply envelope_has_properties.
  assert (P12 : has_properties response12 ([skyline_towers] ++ [palm_court]))
    by apply envelope_has_properties.
  split; [exact P1 |]. split; [exact P2 |]. split; [exact P12 |].
  exact (@formatting_composes AsciiRuntime.runtime (answering response1)
           (answering response2) (answering response12)
           (PStr (py "Mumbai")) (PInt 2) (PStr (py "Residential"))
           (PStr (py "Flat")) response1 response2 response12
           [skyline_towers] [palm_court] eq_refl eq_refl eq_refl P1 P2 P12).
Defined.



(** X14. With a list under ["data"]["properties"], the empty string is
    returned exactly when the list is empty: a list with at least one
    element gives a non-empty text or an exception. *)
Theorem empty_text_iff_no_records {R : Runtime} (self : PropertyFindingAgent)
    (city max_price property_category property_type response : pyval)
    (records : list pyval) :
  property_extraction self city max_price property_category property_type
  = Ok response ->
  has_properties response records ->
  (find_properties self city max_price property_category property_type = Ok []
   <-> records = []).
Proof.
  intros E P. rewrite find_properties_extraction, E. cbn [bind].
  rewrite (format_response_properties P). split.
  - destruct records as [| prop rest]; [reflexivity |]. intro H.
    destruct (format_loop_nonempty _ _ H) as (tail & T).
    discriminate T.
  - intros ->. reflexivity.
Qed.

Lemma empty_text_iff_no_records_witness :
  let response := failed_envelope [] in
  @property_extraction AsciiRuntime.runtime (answering response)
    (PStr (py "Mumbai")) (PInt 2) (PStr (py "Residential")) (PStr (py "Flat"))
  = Ok response
  /\ has_properties response []
  /\ @find_properties AsciiRuntime.runtime (answering response)
       (PStr (py "Mumbai")) (PInt 2) (PStr (py "Residential"))
       (PStr (py "Flat"))
     = Ok [].
Proof.
  intro response.
  assert (E : @property_extraction AsciiRuntime.runtime (answering response)
                (PStr (py "Mumbai")) (PInt 2) (PStr (py "Residential"))
                (PStr (py "Flat")) = Ok response) by reflexivity.
  assert (P : has_properties response [])
    by apply failed_envelope_has_properties.
  split; [exact E |]. split; [exact P |].
  exact (proj2 (@empty_text_iff_no_records AsciiRuntime.runtime
                  (answering response) _ _ _ _ response [] E P) eq_refl).
Defined.

Lemma first_pattern_inj (a c x y : str) (more more' : list str) :
  (a ++ x ++ c) :: more = (a ++ y ++ c) :: more' -> x = y.
Proof.
  intro H. injection H as H _.
  apply app_inv_head in H. now apply app_inv_tail in H.
Qed.

Lemma property_urls_inj (t1 t2 : str) :
  property_urls t1 = property_urls t2 -> t1 = t2.
Proof. unfold property_urls. apply first_pattern_inj. Qed.

(** X15. Different tokens give different URL patterns: when two calls build
    the same list of URLs, their cities have the same lowercased form. *)
Theorem urls_determine_token {R : Runtime} (s1 s2 : str)
    (max_price1 category1 type1 max_price2 category2 type2 : pyval)
    (urls : list str) (params1 params2 : extract_params) :
  property_request (PStr s1) max_price1 category1 type1 = Ok (urls, params1) ->
  property_request (PStr s2) max_price2 category2 type2 = Ok (urls, params2) ->
  lower s1 = lower s2.
Proof.
  rewrite !property_request_str. intros H1 H2.
  apply property_urls_inj.
  injection H1 as H1 _. injection H2 as H2 _. now rewrite H1, H2.
Qed.

Lemma urls_determine_token_witness :
  let urls := property_urls (@lower AsciiRuntime.runtime (py "Mumbai")) in
  let params1 :=
    {| prompt := @property_prompt AsciiRuntime.runtime (PStr (py "Mumbai"))
                   (PStr (py "Flat")) (PStr (py "Residential")) (PInt 2);
       schema := model_json_schema PropertiesResponse |} in
  let params2 :=
    {| prompt := @property_prompt AsciiRuntime.runtime (PStr (py "MUMBAI"))
                   (PStr (py "Flat")) (PStr (py "Commercial")) (PInt 7);
       schema := model_json_schema PropertiesResponse |} in
  @property_request AsciiRuntime.runtime (PStr (py "Mumbai")) (PInt 2)
    (PStr (py "Residential")) (PStr (py "Flat")) = Ok (urls, params1)
  /\ @property_request AsciiRuntime.runtime (PStr (py "MUMBAI")) (PInt 7)
       (PStr (py "Commercial")) (PStr (py "Flat")) = Ok (urls, params2)
  /\ @lower AsciiRuntime.runtime (py "Mumbai")
     = @lower AsciiRuntime.runtime (py "MUMBAI").
Proof.
  intros urls params1 params2.
  assert (Q1 : @property_request AsciiRuntime.runtime (PStr (py "Mumbai"))
                 (PInt 2) (PStr (py "Residential")) (PStr (py "Flat"))
               = Ok (urls, params1)) by reflexivity.
  assert (Q2 : @property_request AsciiRuntime.runtime (PStr (py "MUMBAI"))
                 (PInt 7) (PStr (py "Commercial")) (PStr (py "Flat"))
               = Ok (urls, params2)) by (vm_compute; reflexivity).
  split; [exact Q1 |]. split; [exact Q2 |].
  exact (@urls_determine_token AsciiRuntime.runtime _ _ _ _ _ _ _ _ _ _ _
           Q1 Q2).
Defined.

(** ** The page *)

Section PageFacts.

Context {R : Runtime}.
Variable FirecrawlApp : pyval -> PropertyFindingAgent.
Variable exn_str : exn -> str.

Lemma create_property_agent_fills (FIRECRAWL_API_KEY OPENAI_API_KEY : pyval)
    (state : session_state) (model_id : pyval) :
  exists agent,
    create_property_agent FirecrawlApp FIRECRAWL_API_KEY OPENAI_API_KEY state
      model_id = Some agent
    /\ self_firecrawl agent = client_of FirecrawlApp FIRECRAWL_API_KEY state.
Proof. destruct state as [agent |]; eexists; split; reflexivity. Qed.

Lemma main_clicked (FIRECRAWL_API_KEY OPENAI_API_KEY : pyval)
    (state : session_state) (w : widgets) :
  search_clicked w = true ->
  snd (main FirecrawlApp exn_str FIRECRAWL_API_KEY OPENAI_API_KEY state w)
  = page_head
    ++ search exn_str (client_of FirecrawlApp FIRECRAWL_API_KEY state) w.
Proof.
  intro C. unfold main. rewrite C.
  destruct (create_property_agent_fills FIRECRAWL_API_KEY OPENAI_API_KEY state
              (PStr (model_choice w))) as (agent & -> & ->).
  reflexivity.
Qed.

Lemma main_shows (FIRECRAWL_API_KEY OPENAI_API_KEY : pyval)
    (state : session_state) (w : widgets) :
  snd (main FirecrawlApp exn_str FIRECRAWL_API_KEY OPENAI_API_KEY state w)
  = page_head
    ++ if search_clicked w
       then search exn_str (client_of FirecrawlApp FIRECRAWL_API_KEY state) w
       else [].
Proof.
  destruct (search_clicked w) eqn:C.
  - now apply main_clicked.
  - unfold main. rewrite C. cbn [snd]. now rewrite app_nil_r.
Qed.

Lemma get_location_trends_ok (self : PropertyFindingAgent) (city : pyval)
    (text : str) :
  get_location_trends self city = Ok text -> text = PLACEHOLDER.
Proof.
  rewrite get_location_trends_extraction.
  destruct (trends_extraction self city); cbn [bind]; [| discriminate].
  now intro H; injection H as <-.
Qed.

Lemma error_is_not_agent_banner (text : str) :
  st_error (AN_ERROR_OCCURRED ++ text) <> st_error AGENT_NOT_INITIALIZED.
Proof.
  intro H. injection H as H. vm_compute in H. discriminate H.
Qed.

End PageFacts.

(** X16. The script goes on only with two keys that are non-empty strings:
    whenever the top of the script does not stop, both globals are. *)
Theorem started_with_both_keys (env_firecrawl env_openai : option str)
    (input_firecrawl input_openai : str) (shown : list st_call)
    (FIRECRAWL_API_KEY OPENAI_API_KEY : pyval) :
  load_api_keys env_firecrawl env_openai input_firecrawl input_openai
  = Started shown FIRECRAWL_API_KEY OPENAI_API_KEY ->
  nonempty_string FIRECRAWL_API_KEY = true
  /\ nonempty_string OPENAI_API_KEY = true.
Proof.
  unfold load_api_keys.
  destruct env_firecrawl as [[| c f] |], env_openai as [[| d o] |];
    cbn [getenv truthy negb orb];
    destruct input_firecrawl, input_openai; cbn [truthy negb orb];
    intro H; try discriminate H; injection H as _ <- <-;
    split; reflexivity.
Qed.

Lemma started_with_both_keys_witness :
  load_api_keys None (Some (py "sk-live")) (py "fc-123") (py "sk-typed")
  = Started [st_error KEYS_MISSING] (PStr (py "fc-123")) (PStr (py "sk-typed"))
  /\ nonempty_string (PStr (py "fc-123")) = true
  /\ nonempty_string (PStr (py "sk-typed")) = true.
Proof.
  assert (E : load_api_keys None (Some (py "sk-live")) (py "fc-123")
                (py "sk-typed")
              = Started [st_error KEYS_MISSING] (PStr (py "fc-123"))
                  (PStr (py "sk-typed"))) by (vm_compute; reflexivity).
  split; [exact E |].
  exact (started_with_both_keys _ _ _ _ E).
Defined.

(** X17. When one of the two keys is missing from the environment, or empty
    there, the banner is shown and both keys are taken from the side bar: a
    key that the environment did provide is discarded, and the script stops
    unless both fields are filled in. *)
Theorem sidebar_replaces_both_keys (env_firecrawl env_openai : option str)
    (input_firecrawl input_openai : str) :
  truthy (getenv env_firecrawl) && truthy (getenv env_openai) = false ->
  load_api_keys env_firecrawl env_openai input_firecrawl input_openai
  = if truthy (PStr input_firecrawl) && truthy (PStr input_openai)
    then Started [st_error KEYS_MISSING] (PStr input_firecrawl)
           (PStr input_openai)
    else Stopped [st_error KEYS_MISSING].
Proof.
  unfold load_api_keys. intro H.
  destruct (truthy (getenv env_firecrawl)), (truthy (getenv env_openai));
    try discriminate H; cbn [negb orb];
    destruct (truthy (PStr input_firecrawl)), (truthy (PStr input_openai));
    reflexivity.
Qed.

Lemma sidebar_replaces_both_keys_witness :
  truthy (getenv (Some (py "fc-123"))) && truthy (getenv None) = false
  /\ load_api_keys (Some (py "fc-123")) None [] (py "sk-typed")
     = Stopped [st_error KEYS_MISSING].
Proof.
  split; [reflexivity |].
  exact (sidebar_replaces_both_keys (Some (py "fc-123")) None []
           (py "sk-typed") eq_refl).
Defined.

(** X18. The agent of a session is created once: a later run of [main]
    keeps the agent of the first run, with the model chosen then, whatever
    model the select box gives now; choosing another model has no effect. *)
Theorem model_change_has_no_effect {R : Runtime}
    (FirecrawlApp : pyval -> PropertyFindingAgent) (exn_str : exn -> str)
    (FIRECRAWL_API_KEY OPENAI_API_KEY : pyval) (first later : widgets) :
  let state :=
    fst (main FirecrawlApp exn_str FIRECRAWL_API_KEY OPENAI_API_KEY None first) in
  fst (main FirecrawlApp exn_str FIRECRAWL_API_KEY OPENAI_API_KEY state later)
  = state
  /\ exists agent,
       state = Some agent
       /\ chat_model_id (self_agent agent) = PStr (model_choice first).
Proof.
  unfold main. cbn [create_property_agent].
  destruct (search_clicked first), (search_clicked later); cbn [fst];
    (split; [reflexivity | eexists; split; reflexivity]).
Qed.

(** X19. The banner "Agent not initialized" is never shown: by the time the
    button is looked at, [create_property_agent] has put an agent in the
    session. *)
Theorem agent_banner_is_unreachable {R : Runtime}
    (FirecrawlApp : pyval -> PropertyFindingAgent) (exn_str : exn -> str)
    (FIRECRAWL_API_KEY OPENAI_API_KEY : pyval)
    (state : session_state) (w : widgets) :
  ~ In (st_error AGENT_NOT_INITIALIZED)
      (snd (main FirecrawlApp exn_str FIRECRAWL_API_KEY OPENAI_API_KEY state w)).
Proof.
  rewrite main_shows. intro H. apply in_app_or in H as [H | H].
  - unfold page_head in H. cbn [In] in H.
    repeat match goal with
           | H : _ \/ _ |- _ => destruct H as [H | H]
           end; try discriminate H; contradiction.
  - destruct (search_clicked w); [| contradiction].
    unfold search in H.
    destruct (find_properties _ _ _ _ _) as [text | e];
      [destruct (get_location_trends _ _) as [trends | e] |];
      cbn [In] in H;
      repeat match goal with
             | H : _ \/ _ |- _ => destruct H as [H | H]
             end;
      try discriminate H; try contradiction;
      now apply error_is_not_agent_banner in H.
Qed.

(** X20. When [find_properties] raises, the page shows the spinner and the
    error message and nothing else: no success banner, no results, and the
    trends are not asked for. *)
Theorem failed_search_shows_only_error {R : Runtime}
    (FirecrawlApp : pyval -> PropertyFindingAgent) (exn_str : exn -> str)
    (FIRECRAWL_API_KEY OPENAI_API_KEY : pyval)
    (state : session_state) (w : widgets) (e : exn) :
  search_clicked w = true ->
  find_properties (client_of FirecrawlApp FIRECRAWL_API_KEY state)
    (PStr (city_text w)) (PFloat (max_price_number w))
    (PStr (category_choice w)) (PStr (type_choice w)) = Raise e ->
  snd (main FirecrawlApp exn_str FIRECRAWL_API_KEY OPENAI_API_KEY state w)
  = page_head
    ++ [st_spinner (py "🔍 Searching for properties...");
        st_error (AN_ERROR_OCCURRED ++ exn_str e)].
Proof.
  intros C F. rewrite (main_clicked _ _ _ _ _ _ C). unfold search.
  now rewrite F.
Qed.

(** X21. When the property search succeeds and [get_location_trends] raises,
    the results stay on the page and the error message follows them. *)
Theorem failed_trends_keep_results {R : Runtime}
    (FirecrawlApp : pyval -> PropertyFindingAgent) (exn_str : exn -> str)
    (FIRECRAWL_API_KEY OPENAI_API_KEY : pyval)
    (state : session_state) (w : widgets) (property_results : str) (e : exn) :
  search_clicked w = true ->
  find_properties (client_of FirecrawlApp FIRECRAWL_API_KEY state)
    (PStr (city_text w)) (PFloat (max_price_number w))
    (PStr (category_choice w)) (PStr (type_choice w)) = Ok property_results ->
  get_location_trends (client_of FirecrawlApp FIRECRAWL_API_KEY state)
    (PStr (city_text w)) = Raise e ->
  snd (main FirecrawlApp exn_str FIRECRAWL_API_KEY OPENAI_API_KEY state w)
  = page_head
    ++ [st_spinner (py "🔍 Searching for properties...");
        st_success (py "✅ Property search completed!");
        st_subheader (py "🏘️ Property Recommendations");
        st_markdown property_results;
        st_spinner (py "📊 Analyzing location trends...");
        st_error (AN_ERROR_OCCURRED ++ exn_str e)].
Proof.
  intros C F T. rewrite (main_clicked _ _ _ _ _ _ C). unfold search.
  now rewrite F, T.
Qed.

(** X22. Whenever the page shows something in the trends panel, it is the
    placeholder text: no run shows anything else there. *)
Theorem trends_panel_is_placeholder {R : Runtime}
    (FirecrawlApp : pyval -> PropertyFindingAgent) (exn_str : exn -> str)
    (FIRECRAWL_API_KEY OPENAI_API_KEY : pyval)
    (state : session_state) (w : widgets) (label : str) (call : st_call) :
  In (st_within (Expander label) call)
     (snd (main FirecrawlApp exn_str FIRECRAWL_API_KEY OPENAI_API_KEY state w)) ->
  call = st_markdown PLACEHOLDER.
Proof.
  rewrite main_shows. intro H. apply in_app_or in H as [H | H].
  - unfold page_head in H. cbn [In] in H.
    repeat match goal with
           | H : _ \/ _ |- _ => destruct H as [H | H]
           end; try discriminate H; contradiction.
  - destruct (search_clicked w); [| contradiction].
    unfold search in H.
    destruct (find_properties _ _ _ _ _) as [text | e];
      [destruct (get_location_trends _ _) as [trends | e] eqn:T |];
      cbn [In] in H;
      repeat match goal with
             | H : _ \/ _ |- _ => destruct H as [H | H]
             end;
      try discriminate H; try contradiction.
    injection H as _ <-. now rewrite (get_location_trends_ok _ _ T).
Qed.

(** X23. A response without property data is reported as a success: the
    page shows the success banner and, as the results, the sentinel. *)
Theorem no_data_under_success_banner {R : Runtime}
    (FirecrawlApp : pyval -> PropertyFindingAgent) (exn_str : exn -> str)
    (FIRECRAWL_API_KEY OPENAI_API_KEY : pyval)
    (state : session_state) (w : widgets) (response : pyval) :
  search_clicked w = true ->
  property_extraction (client_of FirecrawlApp FIRECRAWL_API_KEY state)
    (PStr (city_text w)) (PFloat (max_price_number w))
    (PStr (category_choice w)) (PStr (type_choice w)) = Ok response ->
  lacks_properties response ->
  exists after,
    snd (main FirecrawlApp exn_str FIRECRAWL_API_KEY OPENAI_API_KEY state w)
    = page_head
      ++ st_spinner (py "🔍 Searching for properties...")
      :: st_success (py "✅ Property search completed!")
      :: st_subheader (py "🏘️ Property Recommendations")
      :: st_markdown NO_DATA
      :: st_spinner (py "📊 Analyzing location trends...")
      :: after.
Proof.
  intros C E Lk. rewrite (main_clicked _ _ _ _ _ _ C). unfold search.
  rewrite find_properties_extraction, E. cbn [bind].
  rewrite (format_response_lacking Lk).
  eexists. reflexivity.
Qed.

(** X24. Without both keys nothing runs: when the environment lacks a key
    and a side bar field is empty, a run of the script shows the banner only
    and leaves the session as it was, no agent being created. *)
Theorem script_stops_without_keys {R : Runtime}
    (FirecrawlApp : pyval -> PropertyFindingAgent) (exn_str : exn -> str)
    (env_firecrawl env_openai : option str)
    (input_firecrawl input_openai : str)
    (state : session_state) (w : widgets) :
  truthy (getenv env_firecrawl) && truthy (getenv env_openai) = false ->
  truthy (PStr input_firecrawl) && truthy (PStr input_openai) = false ->
  script FirecrawlApp exn_str env_firecrawl env_openai input_firecrawl
    input_openai state w
  = (state, [st_error KEYS_MISSING]).
Proof.
  intros E I. unfold script, load_api_keys.
  destruct (truthy (getenv env_firecrawl)), (truthy (getenv env_openai));
    try discriminate E; cbn [negb orb];
    destruct (truthy (PStr input_firecrawl)), (truthy (PStr input_openai));
    try discriminate I; reflexivity.
Qed.


Lemma agent_banner_is_unreachable_witness :
  ~ In (st_error AGENT_NOT_INITIALIZED)
      (snd (@main AsciiRuntime.runtime
              (sample_app (Ok (envelope (PDict []))) (Ok PNone))
              sample_exn_str (PStr (py "fc-123")) (PStr (py "sk-live"))
              None mumbai_search)).
Proof.
  exact (@agent_banner_is_unreachable AsciiRuntime.runtime
           (sample_app (Ok (envelope (PDict []))) (Ok PNone))
           sample_exn_str (PStr (py "fc-123")) (PStr (py "sk-live"))
           None mumbai_search).
Defined.

Lemma failed_search_shows_only_error_witness :
  let e := ProviderError (py "timeout") in
  let app := sample_app (Raise e) (Ok PNone) in
  search_clicked mumbai_search = true
  /\ @find_properties AsciiRuntime.runtime
       (client_of app (PStr (py "fc-123")) None)
       (PStr (city_text mumbai_search)) (PFloat (max_price_number mumbai_search))
       (PStr (category_choice mumbai_search)) (PStr (type_choice mumbai_search))
     = Raise e
  /\ snd (@main AsciiRuntime.runtime app sample_exn_str (PStr (py "fc-123"))
            (PStr (py "sk-live")) None mumbai_search)
     = page_head
       ++ [st_spinner (py "🔍 Searching for properties...");
           st_error (AN_ERROR_OCCURRED ++ sample_exn_str e)].
Proof.
  intros e app.
  assert (F : @find_properties AsciiRuntime.runtime
                (client_of app (PStr (py "fc-123")) None)
                (PStr (city_text mumbai_search))
                (PFloat (max_price_number mumbai_search))
                (PStr (category_choice mumbai_search))
                (PStr (type_choice mumbai_search)) = Raise e) by reflexivity.
  split; [reflexivity |]. split; [exact F |].
  exact (@failed_search_shows_only_error AsciiRuntime.runtime app
           sample_exn_str (PStr (py "fc-123")) (PStr (py "sk-live")) None
           mumbai_search e eq_refl F).
Defined.

Lemma failed_trends_keep_results_witness :
  let e := ProviderError (py "timeout") in
  let app := sample_app (Ok (envelope (PDict []))) (Raise e) in
  search_clicked mumbai_search = true
  /\ @find_properties AsciiRuntime.runtime
       (client_of app (PStr (py "fc-123")) None)
       (PStr (city_text mumbai_search)) (PFloat (max_price_number mumbai_search))
       (PStr (category_choice mumbai_search)) (PStr (type_choice mumbai_search))
     = Ok NO_DATA
  /\ @get_location_trends AsciiRuntime.runtime
       (client_of app (PStr (py "fc-123")) None)
       (PStr (city_text mumbai_search)) = Raise e
  /\ snd (@main AsciiRuntime.runtime app sample_exn_str (PStr (py "fc-123"))
            (PStr (py "sk-live")) None mumbai_search)
     = page_head
       ++ [st_spinner (py "🔍 Searching for properties...");
           st_success (py "✅ Property search completed!");
           st_subheader (py "🏘️ Property Recommendations");
           st_markdown NO_DATA;
           st_spinner (py "📊 Analyzing location trends...");
           st_error (AN_ERROR_OCCURRED ++ sample_exn_str e)].
Proof.
  intros e app.
  assert (F : @find_properties AsciiRuntime.runtime
                (client_of app (PStr (py "fc-123")) None)
                (PStr (city_text mumbai_search))
                (PFloat (max_price_number mumbai_search))
                (PStr (category_choice mumbai_search))
                (PStr (type_choice mumbai_search)) = Ok NO_DATA)
    by reflexivity.
  assert (T : @get_location_trends AsciiRuntime.runtime
                (client_of app (PStr (py "fc-123")) None)
                (PStr (city_text mumbai_search)) = Raise e) by reflexivity.
  split; [reflexivity |]. split; [exact F |]. split; [exact T |].
  exact (@failed_trends_keep_results AsciiRuntime.runtime app
           sample_exn_str (PStr (py "fc-123")) (PStr (py "sk-live")) None
           mumbai_search NO_DATA e eq_refl F T).
Defined.

Lemma trends_panel_is_placeholder_witness :
  let app :=
    sample_app (Ok (envelope (PDict [])))
      (Ok (envelope (PDict [(py "locations", PList [])]))) in
  let shown :=
    snd (@main AsciiRuntime.runtime app sample_exn_str (PStr (py "fc-123"))
           (PStr (py "sk-live")) None mumbai_search) in
  In (st_within (Expander (py "📈 Location Trends Analysis")) (st_markdown PLACEHOLDER)) shown
  /\ st_markdown PLACEHOLDER = st_markdown PLACEHOLDER.
Proof.
  intros app shown.
  assert (H : In (st_within (Expander (py "📈 Location Trends Analysis"))
                    (st_markdown PLACEHOLDER)) shown).
  { subst shown. rewrite main_clicked by reflexivity.
    apply in_or_app. right. do 5 right. left. reflexivity. }
  split; [exact H |].
  exact (@trends_panel_is_placeholder AsciiRuntime.runtime app sample_exn_str
           (PStr (py "fc-123")) (PStr (py "sk-live")) None mumbai_search
           _ _ H).
Defined.

Lemma no_data_under_success_banner_witness :
  let response := envelope (PDict []) in
  let app := sample_app (Ok response) (Ok PNone) in
  search_clicked mumbai_search = true
  /\ @property_extraction AsciiRuntime.runtime
       (client_of app (PStr (py "fc-123")) None)
       (PStr (city_text mumbai_search)) (PFloat (max_price_number mumbai_search))
       (PStr (category_choice mumbai_search)) (PStr (type_choice mumbai_search))
     = Ok response
  /\ lacks_properties response
  /\ In (st_markdown NO_DATA)
       (snd (@main AsciiRuntime.runtime app sample_exn_str
               (PStr (py "fc-123")) (PStr (py "sk-live")) None mumbai_search)).
Proof.
  intros response app.
  assert (E : @property_extraction AsciiRuntime.runtime
                (client_of app (PStr (py "fc-123")) None)
                (PStr (city_text mumbai_search))
                (PFloat (max_price_number mumbai_search))
                (PStr (category_choice mumbai_search))
                (PStr (type_choice mumbai_search)) = Ok response)
    by reflexivity.
  assert (K : lacks_properties response).
  { right. eexists. split; [reflexivity |]. right. exists [].
    split; reflexivity. }
  split; [reflexivity |]. split; [exact E |]. split; [exact K |].
  destruct (@no_data_under_success_banner AsciiRuntime.runtime app
              sample_exn_str (PStr (py "fc-123")) (PStr (py "sk-live")) None
              mumbai_search response eq_refl E K) as (after & ->).
  apply in_or_app. right. do 3 right. left. reflexivity.
Defined.

Lemma script_stops_without_keys_witness :
  let app := sample_app (Ok (envelope (PDict []))) (Ok PNone) in
  truthy (getenv (Some (py "fc-123"))) && truthy (getenv None) = false
  /\ truthy (PStr []) && truthy (PStr (py "sk-typed")) = false
  /\ @script AsciiRuntime.runtime app sample_exn_str (Some (py "fc-123")) None
       [] (py "sk-typed") None mumbai_search
     = (None, [st_error KEYS_MISSING]).
Proof.
  intro app. split; [reflexivity |]. split; [reflexivity |].
  exact (@script_stops_without_keys AsciiRuntime.runtime app sample_exn_str
           (Some (py "fc-123")) None [] (py "sk-typed") None mumbai_search
           eq_refl eq_refl).
Defined.

